(** * The registration interstitials of NodeBB ([src/user/interstitials.js])

    A shallow embedding of the three built-in interstitial steps (email
    update, GDPR consent, terms of use) and of the callbacks they register,
    followed by the properties of the pipeline that are stated about them.

    JavaScript objects used as records (the draft account [userData], the
    submitted form [formData], the session) are finite maps from property
    names to JavaScript values; reading an absent property gives
    [undefined].  The collaborators the module requires ([user], [db],
    [meta], [privileges], [plugins], [utils]) are not part of this file of
    the repository: they are fields of an environment record, and every call
    to one of them is recorded, in program order, in a trace of events. *)

From Stdlib Require Import ZArith Ascii String List Bool Lia.
From stdpp Require Import base option strings gmap pretty.

Local Open Scope string_scope.
Local Open Scope Z_scope.

(** ** JavaScript values *)

Module JS.

(** Primitive values.  Numbers are the integers among the doubles (user
    ids, flags, intervals); [NaN] only arises as the result of [parseInt]
    and is represented there by [None].  Strings are sequences of code
    units below 256. *)
Inductive value : Type :=
| VUndef
| VNull
| VBool (b : bool)
| VNum (n : Z)
| VStr (s : string).

#[global] Instance value_eq_dec : EqDecision value.
Proof. solve_decision. Defined.

#[global] Instance value_inhabited : Inhabited value := populate VUndef.

(** An object used as a record of properties. *)
Abbreviation obj := (gmap string value).

(** [o.k]: an absent property reads as [undefined]. *)
Definition get (o : obj) (k : string) : value := default VUndef (o !! k).

(** [o.k = v]. *)
Definition set (o : obj) (k : string) (v : value) : obj := <[k := v]> o.

(** [delete o.k]. *)
Definition del (o : obj) (k : string) : obj := delete k o.

(** ToBoolean. *)
Definition truthy (v : value) : bool :=
  match v with
  | VUndef | VNull => false
  | VBool b => b
  | VNum n => negb (n =? 0)
  | VStr s => negb (String.eqb s "")
  end.

(** [a === b] *)
Definition strict_eq (a b : value) : bool := bool_decide (a = b).

(** [String(v)] *)
Definition to_string (v : value) : string :=
  match v with
  | VUndef => "undefined"
  | VNull => "null"
  | VBool true => "true"
  | VBool false => "false"
  | VNum n => pretty n
  | VStr s => s
  end.

(** White space and line terminators among the code units below 256:
    TAB, LF, VT, FF, CR, SP and NBSP. *)
Definition is_space (a : ascii) : bool :=
  let n := N_of_ascii a in
  ((9 <=? n) && (n <=? 13) || (n =? 32) || (n =? 160))%N.

Fixpoint trim_start (s : string) : string :=
  match s with
  | String a r => if is_space a then trim_start r else s
  | EmptyString => EmptyString
  end.

Fixpoint rev_onto (s acc : string) : string :=
  match s with
  | String a r => rev_onto r (String a acc)
  | EmptyString => acc
  end.

Definition rev (s : string) : string := rev_onto s EmptyString.

(** [s.trim()] *)
Definition trim (s : string) : string := rev (trim_start (rev (trim_start s))).

Definition digit_of (a : ascii) : option Z :=
  let n := N_of_ascii a in
  if ((48 <=? n) && (n <=? 57))%N then Some (Z.of_N n - 48) else None.

(** The longest prefix of decimal digits, read as a number; [None] when
    there is no digit at all. *)
Fixpoint digits (s : string) (acc : option Z) : option Z :=
  match s with
  | String a r =>
      match digit_of a with
      | Some d => digits r (Some (10 * default 0 acc + d))
      | None => acc
      end
  | EmptyString => acc
  end.

(** [parseInt(s, 10)] on a string; [None] is [NaN]. *)
Definition parseInt_string (s : string) : option Z :=
  match trim_start s with
  | String "-" r => Z.opp <$> digits r None
  | String "+" r => digits r None
  | t => digits t None
  end.

(** [parseInt(v, 10)]: the argument is first converted to a string. *)
Definition parseInt (v : value) : option Z :=
  match v with
  | VNum n => Some n
  | _ => parseInt_string (to_string v)
  end.

(** [parseInt(a, 10) === parseInt(b, 10)]; [NaN] is equal to nothing. *)
Definition parseInt_eq (a b : value) : bool :=
  match parseInt a, parseInt b with
  | Some x, Some y => x =? y
  | _, _ => false
  end.

(** Truthiness of [parseInt(v, 10)]. *)
Definition parseInt_truthy (v : value) : bool :=
  match parseInt v with
  | Some n => negb (n =? 0)
  | None => false
  end.

(** The message of [new Error(v)]. *)
Definition error_message (v : value) : string :=
  match v with
  | VUndef => ""
  | _ => to_string v
  end.

End JS.

Import JS.

(** ** Computations: state passing with exceptions

    An [async] function (or a plain one) is a state transformer that either
    returns a value or throws an [Error] with a message.  What was written
    to the state before a [throw] stays written, as in JavaScript. *)

Inductive result (A : Type) : Type :=
| Ok (a : A)
| Throw (msg : string).

Arguments Ok {A} a.
Arguments Throw {A} msg.

Definition M (S A : Type) : Type := S -> result A * S.

Definition ret {S A} (a : A) : M S A := fun s => (Ok a, s).

Definition throw {S A} (msg : string) : M S A := fun s => (Throw msg, s).

Definition bind {S A B} (m : M S A) (k : A -> M S B) : M S B :=
  fun s =>
    match m s with
    | (Ok a, s') => k a s'
    | (Throw msg, s') => (Throw msg, s')
    end.

Declare Scope js_scope.
Delimit Scope js_scope with js.

Notation "x <- m ;; k" := (bind m (fun x => k))
  (at level 100, m at next level, right associativity) : js_scope.
Notation "m ;; k" := (bind m (fun _ => k))
  (at level 100, right associativity) : js_scope.

Local Open Scope js_scope.

(** ** The collaborators and the trace of calls to them *)

(** One event per call that leaves the module, with its arguments. *)
Inductive event : Type :=
| AdminCan (privilege : string) (uid : value)
| HasPassword (uid : value)
| IsValidationPending (uid : value)
| GetUserField (uid : value) (field : string)
| IsPasswordCorrect (uid password ip : value)
| CanEdit (callerUid uid : value)
| GetUserFields (uid : value) (fields : list string)
| FireSaveEmail (uid email : value) (registration : bool)
| Sleep (ms : Z)
| CanSendValidation (uid email : value)
| EmailAvailable (email : value)
| EmailRemove (uid sessionId : value)
| SetUserField (uid : value) (field : string) (v : value)
| ConfirmByUid (uid : value)
| SendValidationEmail (uid email : value) (force : bool)
| WinstonError (msg : string)
| GetObjectField (key field : string)
| FireParsePost (content : value).

#[global] Instance event_eq_dec : EqDecision event.
Proof. solve_decision. Defined.

(** The calls that change an account: the email binding, a stored field,
    the confirmation state, or that send a message to its owner. *)
Definition is_mutation (e : event) : bool :=
  match e with
  | EmailRemove _ _ | SetUserField _ _ _ | ConfirmByUid _
  | SendValidationEmail _ _ _ => true
  | _ => false
  end.

Definition is_sleep (e : event) : bool :=
  match e with
  | Sleep _ => true
  | _ => false
  end.

(** The four lookups that the callback of the email step joins with
    [Promise.all] for an existing account. *)
Definition is_joined_lookup (e : event) : bool :=
  match e with
  | IsPasswordCorrect _ _ _ | CanEdit _ _ | GetUserFields _ _
  | FireSaveEmail _ _ false => true
  | _ => false
  end.

(** The answers of the collaborators.  Within one step, and within one
    callback, every read of the account store precedes every write to it, so
    a read is a function of its arguments.  A collaborator that rejects is
    outside this model: each one returns. *)
Record Env : Type := {
  (** [meta.config] *)
  config : obj;
  (** [privileges.admin.can(privilege, uid)] *)
  admin_can : string -> value -> bool;
  (** [privileges.users.canEdit(callerUid, uid)] *)
  users_canEdit : value -> value -> bool;
  (** [user.hasPassword(uid)] *)
  user_hasPassword : value -> bool;
  (** [user.isPasswordCorrect(uid, password, ip)] *)
  user_isPasswordCorrect : value -> value -> value -> bool;
  (** [user.getUserField(uid, field)] *)
  user_getUserField : value -> string -> value;
  (** [user.getUserFields(uid, fields)] *)
  user_getUserFields : value -> list string -> obj;
  (** [user.email.isValidationPending(uid)] *)
  email_isValidationPending : value -> bool;
  (** [user.email.canSendValidation(uid, email)] *)
  email_canSendValidation : value -> value -> bool;
  (** [user.email.available(email)] *)
  email_available : value -> bool;
  (** [user.email.sendValidationEmail(uid, {email, force})]: [Some stack]
      when the promise rejects with an error whose stack is [stack]. *)
  email_sendValidationEmail : value -> value -> bool -> option string;
  (** [db.getObjectField(key, field)] *)
  db_getObjectField : string -> string -> value;
  (** [utils.isEmailValid(email)] *)
  utils_isEmailValid : value -> bool;
  (** [plugins.hooks.fire('filter:user.saveEmail', {uid, email, registration,
      allowed: true, error: '[[error:invalid-email]]'})]: the [allowed] and
      [error] properties of the payload that comes back. *)
  fire_saveEmail : value -> value -> bool -> value * value;
  (** [plugins.hooks.fire('filter:parse.post', {postData: {content}})]: the
      [postData.content] of the payload that comes back. *)
  fire_parse_post : value -> value;
}.

(** ** The data model of the pipeline *)

(** What the steps read of the request: [req.uid] and [req.ip].  The
    session object [req.session] is mutable and lives in the state of the
    callbacks. *)
Record request : Type := {
  req_uid : value;
  req_ip : value;
}.

(** The state a callback runs in: the draft account and the submitted form
    it is given (both are mutated in place), the session of the request,
    and the trace. *)
Record cbstate : Type := {
  cb_userData : obj;
  cb_formData : obj;
  cb_session : obj;
  cb_trace : list event;
}.

(** The two shapes of callback the runner accepts: an [async] function of
    the draft and the form, and a function that is also given a
    continuation [next]; the value of the latter is the argument [next]
    receives, [None] for [null] and [Some msg] for [new Error(msg)]. *)
Inductive callback : Type :=
| AsyncCallback (f : M cbstate unit)
| NodeCallback (f : M cbstate (option string)).

Record interstitial : Type := {
  template : string;
  idata : obj;
  icallback : callback;
}.

(** The accumulator that is threaded through the steps. *)
Record data : Type := {
  req : request;
  userData : option obj;
  interstitials : list interstitial;
}.

(** [data.interstitials.push(i)] *)
Definition push (d : data) (i : interstitial) : data :=
  {| req := req d; userData := userData d;
     interstitials := (interstitials d ++ [i])%list |}.

(** ** Primitive computations *)

Definition log (e : event) : M (list event) unit :=
  fun t => (Ok tt, (t ++ [e])%list).

(** A call to a collaborator during a step: record it, return its answer. *)
Definition call {A} (e : event) (answer : A) : M (list event) A :=
  log e ;; ret answer.

Definition cb_log (e : event) : M cbstate unit :=
  fun st => (Ok tt, {| cb_userData := cb_userData st; cb_formData := cb_formData st;
                       cb_session := cb_session st; cb_trace := (cb_trace st ++ [e])%list |}).

(** A call to a collaborator during a callback. *)
Definition cb_call {A} (e : event) (answer : A) : M cbstate A :=
  cb_log e ;; ret answer.

Definition user_get (k : string) : M cbstate value :=
  fun st => (Ok (get (cb_userData st) k), st).

Definition user_set (k : string) (v : value) : M cbstate unit :=
  fun st => (Ok tt, {| cb_userData := set (cb_userData st) k v; cb_formData := cb_formData st;
                       cb_session := cb_session st; cb_trace := cb_trace st |}).

Definition user_del (k : string) : M cbstate unit :=
  fun st => (Ok tt, {| cb_userData := del (cb_userData st) k; cb_formData := cb_formData st;
                       cb_session := cb_session st; cb_trace := cb_trace st |}).

Definition form_get (k : string) : M cbstate value :=
  fun st => (Ok (get (cb_formData st) k), st).

Definition form_set (k : string) (v : value) : M cbstate unit :=
  fun st => (Ok tt, {| cb_userData := cb_userData st; cb_formData := set (cb_formData st) k v;
                       cb_session := cb_session st; cb_trace := cb_trace st |}).

Definition session_get (k : string) : M cbstate value :=
  fun st => (Ok (get (cb_session st) k), st).

Definition session_set (k : string) (v : value) : M cbstate unit :=
  fun st => (Ok tt, {| cb_userData := cb_userData st; cb_formData := cb_formData st;
                       cb_session := set (cb_session st) k v; cb_trace := cb_trace st |}).

(** [v.length] of a value that is neither [undefined] nor [null]. *)
Definition length_of (v : value) : value :=
  match v with
  | VStr s => VNum (Z.of_nat (String.length s))
  | _ => VUndef
  end.

(** Truthiness of [v && v.length]. *)
Definition has_length (v : value) : bool := truthy v && truthy (length_of v).

(** [v.length], which throws a [TypeError] on [undefined] and [null]. *)
Definition length_prop {S} (v : value) : M S value :=
  match v with
  | VUndef => throw "Cannot read properties of undefined (reading 'length')"
  | VNull => throw "Cannot read properties of null (reading 'length')"
  | _ => ret (length_of v)
  end.

Definition newline : string := String (ascii_of_nat 10) EmptyString.

(** ** The steps *)

Module Interstitials.

Section Steps.

Context (E : Env).

Definition cfg (k : string) : value := get (config E) k.

(** The callback of the email step (lines 55-146).  It closes over
    [data.req] and over [canManageUsers] and [hasPassword], which the step
    computed when it built the interstitial. *)
Definition email_callback (rq : request) (canManageUsers hasPassword : bool)
  : M cbstate unit :=
  submitted <- form_get "email" ;;
  (if truthy submitted
   then form_set "email" (VStr (trim (to_string submitted)))
   else ret tt) ;;
  uid <- user_get "uid" ;;
  (if truthy uid then
     let isSelf := parseInt_eq uid (req_uid rq) in
     password <- form_get "password" ;;
     isPasswordCorrect <-
       cb_call (IsPasswordCorrect uid password (req_ip rq))
               (user_isPasswordCorrect E uid password (req_ip rq)) ;;
     canEdit <-
       cb_call (CanEdit (req_uid rq) uid) (users_canEdit E (req_uid rq) uid) ;;
     fields <-
       cb_call (GetUserFields uid ["email"; "email:confirmed"])
               (user_getUserFields E uid ["email"; "email:confirmed"]) ;;
     let current := get fields "email" in
     let confirmed := get fields "email:confirmed" in
     email <- form_get "email" ;;
     hook <- cb_call (FireSaveEmail uid email false) (fire_saveEmail E uid email false) ;;
     let allowed := fst hook in
     let error := snd hook in
     (if negb canManageUsers && negb isPasswordCorrect
      then cb_log (Sleep 2000)
      else ret tt) ;;
     if has_length email then
       (if negb (truthy allowed) || negb (utils_isEmailValid E email)
        then throw (error_message error)
        else ret tt) ;;
       (if strict_eq email current then
          if truthy confirmed then throw "[[error:email-nochange]]"
          else
            canSend <- cb_call (CanSendValidation uid current)
                               (email_canSendValidation E uid current) ;;
            if negb canSend
            then throw ("[[error:confirm-email-already-sent, "
                          +:+ to_string (cfg "emailConfirmInterval") +:+ "]]")
            else ret tt
        else ret tt) ;;
       if canManageUsers && negb (strict_eq uid (req_uid rq)) then
         available <- cb_call (EmailAvailable email) (email_available E email) ;;
         (if negb available then throw "[[error:email-taken]]" else ret tt) ;;
         cb_log (EmailRemove uid VUndef) ;;
         cb_log (SetUserField uid "email" email) ;;
         cb_log (ConfirmByUid uid)
       else if canEdit then
         (if hasPassword && negb isPasswordCorrect
          then throw "[[error:invalid-password]]"
          else ret tt) ;;
         rejected <- cb_call (SendValidationEmail uid email true)
                             (email_sendValidationEmail E uid email true) ;;
         match rejected with
         | Some stack =>
             cb_log (WinstonError
                       ("[user.interstitials.email] Validation email failed to send"
                          +:+ newline +:+ "[emailer.send] " +:+ stack))
         | None => ret tt
         end ;;
         session_set "emailChanged" (VNum 1)
       else throw "[[error:no-privileges]]"
     else
       (if truthy (cfg "requireEmailAddress")
        then throw "[[error:invalid-email]]"
        else ret tt) ;;
       len <- length_prop current ;;
       if truthy len
          && (negb hasPassword || (hasPassword && isPasswordCorrect) || canManageUsers)
       then
         sessionId <- (if isSelf then session_get "id" else ret VNull) ;;
         cb_log (EmailRemove uid sessionId)
       else ret tt
   else
     email <- form_get "email" ;;
     hook <- cb_call (FireSaveEmail VNull email true) (fire_saveEmail E VNull email true) ;;
     let allowed := fst hook in
     let error := snd hook in
     (if negb (truthy allowed)
         || (truthy (cfg "requireEmailAddress") && negb (has_length email))
      then throw (error_message error)
      else ret tt) ;;
     user_set "email" email) ;;
  user_del "updateEmail".

(** [hasPassword && ((canManageUsers && data.userData.uid === data.req.uid)
    || (!canManageUsers && !!data.userData.uid))] (lines 47-52). *)
Definition issuePasswordChallenge (canManageUsers hasPassword : bool)
    (uid requester : value) : bool :=
  hasPassword
  && ((canManageUsers && strict_eq uid requester)
      || (negb canManageUsers && truthy uid)).

(** [Interstitials.email] (lines 23-150). *)
Definition email (d : data) : M (list event) data :=
  match userData d with
  | None => throw "[[error:invalid-data]]"
  | Some u =>
      if negb (truthy (get u "updateEmail")) then ret d
      else
        let uid := get u "uid" in
        canManageUsers <-
          call (AdminCan "admin:users" (req_uid (req d)))
               (admin_can E "admin:users" (req_uid (req d))) ;;
        hasPassword <- call (HasPassword uid) (user_hasPassword E uid) ;;
        hasPending <-
          call (IsValidationPending uid) (email_isValidationPending E uid) ;;
        email <- (if truthy uid
                  then call (GetUserField uid "email") (user_getUserField E uid "email")
                  else ret VUndef) ;;
        ret (push d
               {| template := "partials/email_update";
                  idata :=
                    {[ "email" := email;
                       "requireEmailAddress" := cfg "requireEmailAddress";
                       "issuePasswordChallenge" :=
                         VBool (issuePasswordChallenge canManageUsers hasPassword
                                  uid (req_uid (req d)));
                       "hasPending" := VBool hasPending ]};
                  icallback :=
                    AsyncCallback (email_callback (req d) canManageUsers hasPassword) |})
  end.

(** The callback of the consent step (lines 173-179). *)
Definition gdpr_callback : M cbstate (option string) :=
  agree_data <- form_get "gdpr_agree_data" ;;
  agree_email <- form_get "gdpr_agree_email" ;;
  (if strict_eq agree_data (VStr "on") && strict_eq agree_email (VStr "on")
   then user_set "gdpr_consent" (VBool true)
   else ret tt) ;;
  consent <- user_get "gdpr_consent" ;;
  ret (if truthy consent then None else Some "[[register:gdpr_consent_denied]]").

(** [Interstitials.gdpr] (lines 152-182). *)
Definition gdpr (d : data) : M (list event) data :=
  if negb (truthy (cfg "gdpr_enabled"))
     || match userData d with
        | Some u => truthy (get u "gdpr_consent")
        | None => false
        end
  then ret d
  else
    match userData d with
    | None => throw "[[error:invalid-data]]"
    | Some u =>
        let uid := get u "uid" in
        stored <-
          (if truthy uid then
             consented <- call (GetObjectField ("user:" +:+ to_string uid) "gdpr_consent")
                               (db_getObjectField E ("user:" +:+ to_string uid) "gdpr_consent") ;;
             ret (parseInt_truthy consented)
           else ret false) ;;
        if stored : bool then ret d
        else
          ret (push d
                 {| template := "partials/gdpr_consent";
                    idata :=
                      {[ "digestFrequency" := cfg "dailyDigestFreq";
                         "digestEnabled" :=
                           VBool (negb (strict_eq (cfg "dailyDigestFreq") (VStr "off"))) ]};
                    icallback := NodeCallback gdpr_callback |})
    end.

(** The callback of the terms-of-use step (lines 211-217). *)
Definition tou_callback : M cbstate (option string) :=
  agree <- form_get "agree-terms" ;;
  (if strict_eq agree (VStr "on")
   then user_set "acceptTos" (VBool true)
   else ret tt) ;;
  accepted <- user_get "acceptTos" ;;
  ret (if truthy accepted then None else Some "[[register:terms_of_use_error]]").

(** [meta.config.termsOfUse || ''] *)
Definition or_empty (v : value) : value := if truthy v then v else VStr "".

(** [Interstitials.tou] (lines 184-220). *)
Definition tou (d : data) : M (list event) data :=
  match userData d with
  | None => throw "[[error:invalid-data]]"
  | Some u =>
      if negb (truthy (cfg "termsOfUse")) || truthy (get u "acceptTos") then ret d
      else
        let uid := get u "uid" in
        stored <-
          (if truthy uid then
             accepted <- call (GetObjectField ("user:" +:+ to_string uid) "acceptTos")
                              (db_getObjectField E ("user:" +:+ to_string uid) "acceptTos") ;;
             ret (parseInt_truthy accepted)
           else ret false) ;;
        if stored : bool then ret d
        else
          termsOfUse <- call (FireParsePost (or_empty (cfg "termsOfUse")))
                             (fire_parse_post E (or_empty (cfg "termsOfUse"))) ;;
          ret (push d
                 {| template := "partials/acceptTos";
                    idata := {[ "termsOfUse" := termsOfUse ]};
                    icallback := NodeCallback tou_callback |})
  end.

(** [Interstitials.get] (lines 17-21).  The filter
    ['filter:register.interstitial'] of the plugin bus is a parameter: it
    receives the accumulator, seeded with an empty list, and returns it
    augmented by the steps registered on the bus. *)
Definition get (fire_register_interstitial : data -> M (list event) data)
    (rq : request) (u : option obj) : M (list event) data :=
  fire_register_interstitial {| req := rq; userData := u; interstitials := [] |}.

End Steps.

End Interstitials.

(** ** A deployment to run the steps on

    A small forum used to evaluate the steps on concrete inputs: account 1
    may administer users, account 2 is a global moderator (it may edit the
    accounts of others without administering users), every account has the
    password [secret] and the confirmed address [old@example.com]. *)

Module Fixture.

Fixpoint contains (a : ascii) (s : string) : bool :=
  match s with
  | String b r => Ascii.eqb a b || contains a r
  | EmptyString => false
  end.

(** A string with an [@] and neither a comma nor a semicolon. *)
Definition isEmailValid (v : value) : bool :=
  match v with
  | VStr s => negb (String.eqb s "") && contains "@" s
              && negb (contains "," s) && negb (contains ";" s)
  | _ => false
  end.

Definition forum_config : obj :=
  {[ "requireEmailAddress" := VNum 1;
     "emailConfirmInterval" := VNum 10;
     "gdpr_enabled" := VNum 1;
     "dailyDigestFreq" := VStr "week";
     "termsOfUse" := VStr "Be kind." ]}.

Definition forum : Env :=
  {| config := forum_config;
     admin_can := fun _ uid => strict_eq uid (VNum 1);
     users_canEdit := fun caller uid =>
       parseInt_eq caller uid || strict_eq caller (VNum 1) || strict_eq caller (VNum 2);
     user_hasPassword := fun uid => truthy uid;
     user_isPasswordCorrect := fun _ password _ => strict_eq password (VStr "secret");
     user_getUserField := fun _ field =>
       if String.eqb field "email" then VStr "old@example.com" else VUndef;
     user_getUserFields := fun _ _ =>
       {[ "email" := VStr "old@example.com"; "email:confirmed" := VNum 1 ]};
     email_isValidationPending := fun _ => false;
     email_canSendValidation := fun _ _ => false;
     email_available := fun email => negb (strict_eq email (VStr "taken@example.com"));
     email_sendValidationEmail := fun _ _ _ => None;
     db_getObjectField := fun _ _ => VNull;
     utils_isEmailValid := isEmailValid;
     fire_saveEmail := fun _ _ _ => (VBool true, VStr "[[error:invalid-email]]");
     fire_parse_post := fun content => content |}.

(** The same forum with a plugin on ['filter:user.saveEmail'] that refuses
    every change of address. *)
Definition forum_with_veto : Env :=
  {| config := forum_config;
     admin_can := admin_can forum;
     users_canEdit := users_canEdit forum;
     user_hasPassword := user_hasPassword forum;
     user_isPasswordCorrect := user_isPasswordCorrect forum;
     user_getUserField := user_getUserField forum;
     user_getUserFields := user_getUserFields forum;
     email_isValidationPending := email_isValidationPending forum;
     email_canSendValidation := email_canSendValidation forum;
     email_available := email_available forum;
     email_sendValidationEmail := email_sendValidationEmail forum;
     db_getObjectField := db_getObjectField forum;
     utils_isEmailValid := utils_isEmailValid forum;
     fire_saveEmail := fun _ _ _ => (VBool false, VStr "[[error:email-domain-blocked]]");
     fire_parse_post := fire_parse_post forum |}.

(** The same forum with consent collection switched off. *)
Definition forum_without_gdpr : Env :=
  {| config := del forum_config "gdpr_enabled";
     admin_can := admin_can forum;
     users_canEdit := users_canEdit forum;
     user_hasPassword := user_hasPassword forum;
     user_isPasswordCorrect := user_isPasswordCorrect forum;
     user_getUserField := user_getUserField forum;
     user_getUserFields := user_getUserFields forum;
     email_isValidationPending := email_isValidationPending forum;
     email_canSendValidation := email_canSendValidation forum;
     email_available := email_available forum;
     email_sendValidationEmail := email_sendValidationEmail forum;
     db_getObjectField := db_getObjectField forum;
     utils_isEmailValid := utils_isEmailValid forum;
     fire_saveEmail := fire_saveEmail forum;
     fire_parse_post := fire_parse_post forum |}.

(** A request of account [uid] from a fixed address. *)
Definition request_of (uid : Z) : request :=
  {| req_uid := VNum uid; req_ip := VStr "203.0.113.9" |}.

(** The state in which a callback starts: draft, form, a fresh session and
    an empty trace. *)
Definition start (draft form : obj) : cbstate :=
  {| cb_userData := draft; cb_formData := form;
     cb_session := {[ "id" := VStr "s3ss10n" ]}; cb_trace := [] |}.

End Fixture.

(** ** Reading the outcome of a step *)

(** The render data of the interstitial a step has just pushed: property
    [k] of the [data] of the last entry of the list, when the step
    returned. *)
Definition rendered (r : result data * list event) (k : string) : option value :=
  match r with
  | (Ok d, _) => (fun i => get (idata i) k) <$> last (interstitials d)
  | (Throw _, _) => None
  end.

(** The events a callback added to the trace. *)
Definition added (before after : cbstate) (evs : list event) : Prop :=
  cb_trace after = (cb_trace before ++ evs)%list.

(** The submitted email as the callback of the email step sees it after
    lines 56-58: trimmed when it was truthy. *)
Definition trimmed (v : value) : value :=
  if truthy v then VStr (trim (to_string v)) else v.

(** ** The password challenge as the specification words it

    True when the account has a password and either an administrator is
    editing their own account, or a non-administrator is editing their own
    account; "their own account" is, as in the test the source makes for
    the administrator, that the uid of the draft is the uid of the
    request. *)
Definition issuePasswordChallenge_spec (canManageUsers hasPassword : bool)
    (uid requester : value) : bool :=
  hasPassword
  && ((canManageUsers && strict_eq uid requester)
      || (negb canManageUsers && strict_eq uid requester)).

(** ** Classes of events *)

(** [user.email.sendValidationEmail] *)
Definition is_send (e : event) : bool :=
  match e with
  | SendValidationEmail _ _ _ => true
  | _ => false
  end.

(** [user.email.remove] *)
Definition is_remove (e : event) : bool :=
  match e with
  | EmailRemove _ _ => true
  | _ => false
  end.

(** The two calls by which an email is written and confirmed without its
    owner answering a confirmation message: [user.setUserField] and
    [user.email.confirmByUid]. *)
Definition is_direct_write (e : event) : bool :=
  match e with
  | SetUserField _ _ _ | ConfirmByUid _ => true
  | _ => false
  end.

(** No event of the list is in the class [p]. *)
Definition none_of (p : event -> bool) (evs : list event) : bool :=
  forallb (fun e => negb (p e)) evs.

(** [winston.error] *)
Definition is_log (e : event) : bool :=
  match e with
  | WinstonError _ => true
  | _ => false
  end.

(** ** Variants of the deployment *)

(** The forum of [Fixture] with another configuration, another state of
    confirmation of the current address, another answer to "may a
    confirmation be sent again?" and another fate of the validation
    email. *)
Definition forum_variant (cfg : obj) (confirmed : Z) (canSend : bool)
    (rejected : option string) : Env :=
  {| config := cfg;
     admin_can := admin_can Fixture.forum;
     users_canEdit := users_canEdit Fixture.forum;
     user_hasPassword := user_hasPassword Fixture.forum;
     user_isPasswordCorrect := user_isPasswordCorrect Fixture.forum;
     user_getUserField := user_getUserField Fixture.forum;
     user_getUserFields := fun _ _ =>
       {[ "email" := VStr "old@example.com"; "email:confirmed" := VNum confirmed ]};
     email_isValidationPending := email_isValidationPending Fixture.forum;
     email_canSendValidation := fun _ _ => canSend;
     email_available := email_available Fixture.forum;
     email_sendValidationEmail := fun _ _ _ => rejected;
     db_getObjectField := db_getObjectField Fixture.forum;
     utils_isEmailValid := utils_isEmailValid Fixture.forum;
     fire_saveEmail := fire_saveEmail Fixture.forum;
     fire_parse_post := fire_parse_post Fixture.forum |}.


(** The draft of account 7, flagged for an update of its email. *)
Definition draft7 : obj := {[ "uid" := VNum 7; "updateEmail" := VBool true ]}.

(** * Properties *)

(** ** Running a computation step by step *)

Section Run.

Context {S A B : Type}.

Lemma run_ret (a : A) (k : A -> M S B) (s : S) : bind (ret a) k s = k a s.
Proof. reflexivity. Qed.

Lemma run_throw (msg : string) (k : A -> M S B) (s : S) :
  bind (throw msg) k s = (Throw msg, s).
Proof. reflexivity. Qed.

Lemma run_assoc {C : Type} (m : M S A) (f : A -> M S B) (g : B -> M S C) (s : S) :
  bind (bind m f) g s = bind m (fun a => bind (f a) g) s.
Proof. unfold bind. destruct (m s) as [[a | msg] s']; reflexivity. Qed.

End Run.

Section RunCallback.

Context {B : Type}.

Implicit Types (st : cbstate) (k : string) (v : value) (e : event).

Lemma run_form_get k (f : value -> M cbstate B) st :
  bind (form_get k) f st = f (get (cb_formData st) k) st.
Proof. reflexivity. Qed.

Lemma run_user_get k (f : value -> M cbstate B) st :
  bind (user_get k) f st = f (get (cb_userData st) k) st.
Proof. reflexivity. Qed.

Lemma run_session_get k (f : value -> M cbstate B) st :
  bind (session_get k) f st = f (get (cb_session st) k) st.
Proof. reflexivity. Qed.

Lemma run_form_set k v (f : unit -> M cbstate B) st :
  bind (form_set k v) f st
  = f tt {| cb_userData := cb_userData st; cb_formData := set (cb_formData st) k v;
            cb_session := cb_session st; cb_trace := cb_trace st |}.
Proof. reflexivity. Qed.

Lemma run_user_set k v (f : unit -> M cbstate B) st :
  bind (user_set k v) f st
  = f tt {| cb_userData := set (cb_userData st) k v; cb_formData := cb_formData st;
            cb_session := cb_session st; cb_trace := cb_trace st |}.
Proof. reflexivity. Qed.

Lemma run_session_set k v (f : unit -> M cbstate B) st :
  bind (session_set k v) f st
  = f tt {| cb_userData := cb_userData st; cb_formData := cb_formData st;
            cb_session := set (cb_session st) k v; cb_trace := cb_trace st |}.
Proof. reflexivity. Qed.

Lemma run_cb_log e (f : unit -> M cbstate B) st :
  bind (cb_log e) f st
  = f tt {| cb_userData := cb_userData st; cb_formData := cb_formData st;
            cb_session := cb_session st; cb_trace := (cb_trace st ++ [e])%list |}.
Proof. reflexivity. Qed.

Lemma run_cb_call {A : Type} e (a : A) (f : A -> M cbstate B) st :
  bind (cb_call e a) f st
  = f a {| cb_userData := cb_userData st; cb_formData := cb_formData st;
           cb_session := cb_session st; cb_trace := (cb_trace st ++ [e])%list |}.
Proof. reflexivity. Qed.

End RunCallback.

Lemma run_call {A B : Type} (e : event) (a : A) (f : A -> M (list event) B)
    (t : list event) :
  bind (call e a) f t = f a (t ++ [e])%list.
Proof. reflexivity. Qed.

Lemma get_set_eq (o : obj) (k : string) (v : value) : get (set o k v) k = v.
Proof. unfold get, set. by rewrite lookup_insert_eq. Qed.

Lemma get_set_ne (o : obj) (k k' : string) (v : value) :
  k <> k' -> get (set o k v) k' = get o k'.
Proof. intros Hne. unfold get, set. by rewrite lookup_insert_ne. Qed.

Lemma get_del_ne (o : obj) (k k' : string) :
  k <> k' -> get (del o k) k' = get o k'.
Proof. intros Hne. unfold get, del. by rewrite lookup_delete_ne. Qed.

Lemma get_del_eq (o : obj) (k : string) : get (del o k) k = VUndef.
Proof. unfold get, del. by rewrite lookup_delete_eq. Qed.

Create Rewrite HintDb run.

#[local] Hint Rewrite @run_ret @run_throw @run_assoc @run_form_get @run_user_get
  @run_session_get @run_form_set @run_user_set @run_session_set
  @run_cb_log @run_cb_call @run_call get_set_eq get_del_eq : run.

Arguments get : simpl never.
Arguments set : simpl never.
Arguments del : simpl never.

(** Run as far as the next test whose outcome is not yet known. *)
Ltac exec := repeat (progress (autorewrite with run; cbn beta iota; simpl cb_userData;
  simpl cb_formData; simpl cb_session; simpl cb_trace)).

(** Case analysis on the next test of a computation that is being run. *)
Ltac branch :=
  match goal with
  | |- context [if ?b then _ else _] => destruct b eqn:?
  | |- context [match ?o with Some _ => _ | None => _ end] => destruct o eqn:?
  end.

(** The last operation of a computation. *)
Ltac finish :=
  unfold throw, ret, user_del, user_set, cb_log, session_set;
  simpl cb_userData; simpl cb_formData; simpl cb_session; simpl cb_trace.

(** ** Sanity checks of the JavaScript primitives *)

Example trim_example : trim "  a@example.com " = "a@example.com".
Proof. reflexivity. Qed.

Example parseInt_examples :
  parseInt (VStr " 42px") = Some 42 /\ parseInt (VStr "-7") = Some (-7) /\
  parseInt VUndef = None /\ parseInt (VStr "") = None /\
  parseInt (VNum 12) = Some 12 /\ to_string (VNum 120) = "120".
Proof. repeat split; vm_compute; reflexivity. Qed.

(** ** The email step *)

(** C9.  When the draft account exists and its [updateEmail] flag is not
    set, [Interstitials.email] returns the very accumulator it was given
    (same draft, same list of interstitials), adds no interstitial and
    calls no collaborator. *)
Theorem email_passes_through_without_updateEmail :
  forall (E : Env) (d : data) (u : obj) (t : list event),
    userData d = Some u ->
    truthy (get u "updateEmail") = false ->
    Interstitials.email E d t = (Ok d, t).
Proof.
  intros E d u t Hu Hflag. unfold Interstitials.email. rewrite Hu, Hflag. reflexivity.
Qed.

Lemma email_passes_through_without_updateEmail_witness :
  let d := {| req := Fixture.request_of 7;
              userData := Some {[ "uid" := VNum 7 ]};
              interstitials := [] |} in
  Interstitials.email Fixture.forum d [] = (Ok d, []).
Proof.
  intro d.
  apply (email_passes_through_without_updateEmail Fixture.forum d {[ "uid" := VNum 7 ]} []).
  - reflexivity.
  - vm_compute. reflexivity.
Defined.

(** C6.  A new-account draft (no uid), the submitted address
    [a@example.com], a deployment that requires an address and a bus that
    leaves [allowed] true: the callback succeeds, the draft gains
    [email = "a@example.com"], no [updateEmail] flag remains, and nothing
    else of the draft changes. *)
Theorem email_callback_new_account_stages_email :
  forall (E : Env) (rq : request) (canManageUsers hasPassword : bool) (st : cbstate),
    truthy (get (cb_userData st) "uid") = false ->
    get (cb_formData st) "email" = VStr "a@example.com" ->
    truthy (Interstitials.cfg E "requireEmailAddress") = true ->
    truthy (fst (fire_saveEmail E VNull (VStr "a@example.com") true)) = true ->
    exists st' : cbstate,
      Interstitials.email_callback E rq canManageUsers hasPassword st = (Ok tt, st')
      /\ cb_userData st' !! "email" = Some (VStr "a@example.com")
      /\ cb_userData st' !! "updateEmail" = None
      /\ (forall k, k <> "email" -> k <> "updateEmail" ->
                    cb_userData st' !! k = cb_userData st !! k)
      /\ cb_session st' = cb_session st
      /\ cb_trace st' = (cb_trace st ++ [FireSaveEmail VNull (VStr "a@example.com") true])%list.
Proof.
  intros E rq cm hp st Huid Hform Hreq Hallow.
  eexists. split.
  - unfold Interstitials.email_callback. exec.
    rewrite Hform. simpl truthy. exec. rewrite Huid. exec.
    change (trim "a@example.com") with "a@example.com".
    rewrite Hallow, Hreq. simpl. exec. reflexivity.
  - simpl. unfold set, del. repeat split.
    + rewrite lookup_delete_ne by done. by rewrite lookup_insert_eq.
    + by rewrite lookup_delete_eq.
    + intros k Hk1 Hk2. rewrite lookup_delete_ne by done. by rewrite lookup_insert_ne.
Qed.

Lemma email_callback_new_account_stages_email_witness :
  exists st' : cbstate,
    Interstitials.email_callback Fixture.forum (Fixture.request_of 0) false false
      (Fixture.start {[ "username" := VStr "ada"; "updateEmail" := VBool true ]}
                     {[ "email" := VStr "a@example.com" ]})
    = (Ok tt, st')
    /\ cb_userData st' = {[ "username" := VStr "ada"; "email" := VStr "a@example.com" ]}.
Proof.
  destruct (email_callback_new_account_stages_email Fixture.forum (Fixture.request_of 0)
              false false
              (Fixture.start {[ "username" := VStr "ada"; "updateEmail" := VBool true ]}
                             {[ "email" := VStr "a@example.com" ]}))
    as (st' & Hrun & _); [vm_compute; reflexivity .. |].
  exists st'. split; [exact Hrun |].
  vm_compute in Hrun. injection Hrun as <-. vm_compute. reflexivity.
Defined.

(** A submitted email that is non-empty after line 58 was truthy before
    it, and is the trimmed string. *)
Lemma has_length_trimmed (v : value) :
  has_length (trimmed v) = true ->
  truthy v = true /\ trimmed v = VStr (trim (to_string v)).
Proof.
  unfold trimmed. destruct (truthy v) eqn:Hv; [done |].
  unfold has_length. rewrite Hv. done.
Qed.

(** C4.  On an existing-account draft, when the requesting actor can
    administer users and the draft is not the actor's own account, a
    submitted email that is well-formed, allowed by the bus, different from
    the current one and available makes the callback remove the old email
    binding, set the new email field and confirm it, in that order, and
    succeed; neither the submitted password nor the answer of the password
    check is a condition of it. *)
Theorem email_callback_admin_sets_email_of_other :
  forall (E : Env) (rq : request) (hasPassword : bool) (st : cbstate),
    let uid := get (cb_userData st) "uid" in
    let email := trimmed (get (cb_formData st) "email") in
    let password := get (cb_formData st) "password" in
    let current := get (user_getUserFields E uid ["email"; "email:confirmed"]) "email" in
    truthy uid = true ->
    strict_eq uid (req_uid rq) = false ->
    has_length email = true ->
    utils_isEmailValid E email = true ->
    truthy (fst (fire_saveEmail E uid email false)) = true ->
    strict_eq email current = false ->
    email_available E email = true ->
    exists st' : cbstate,
      Interstitials.email_callback E rq true hasPassword st = (Ok tt, st')
      /\ added st st'
           [IsPasswordCorrect uid password (req_ip rq);
            CanEdit (req_uid rq) uid;
            GetUserFields uid ["email"; "email:confirmed"];
            FireSaveEmail uid email false;
            EmailAvailable email;
            EmailRemove uid VUndef;
            SetUserField uid "email" email;
            ConfirmByUid uid]
      /\ cb_userData st' = del (cb_userData st) "updateEmail"
      /\ cb_session st' = cb_session st.
Proof.
  intros E rq hp st uid email password current Huid Hother Hlen Hvalid Hallow Hdiff Havail.
  subst uid email password current.
  destruct (has_length_trimmed _ Hlen) as [Htruthy Htrim].
  rewrite Htrim in *.
  eexists. split.
  - unfold Interstitials.email_callback. exec.
    rewrite Htruthy. exec. rewrite Huid. exec.
    rewrite get_set_ne by done.
    rewrite Hlen, Hallow, Hvalid. simpl. exec.
    rewrite Hdiff. exec. rewrite Hother. simpl. exec.
    rewrite Havail. simpl. exec. reflexivity.
  - unfold added. simpl. rewrite <- !app_assoc. simpl. done.
Qed.

Lemma email_callback_admin_sets_email_of_other_witness :
  exists st' : cbstate,
    Interstitials.email_callback Fixture.forum (Fixture.request_of 1) true true
      (Fixture.start {[ "uid" := VNum 7; "updateEmail" := VBool true ]}
                     {[ "email" := VStr " new@example.com " ]})
    = (Ok tt, st')
    /\ cb_trace st'
       = [IsPasswordCorrect (VNum 7) VUndef (VStr "203.0.113.9");
          CanEdit (VNum 1) (VNum 7);
          GetUserFields (VNum 7) ["email"; "email:confirmed"];
          FireSaveEmail (VNum 7) (VStr "new@example.com") false;
          EmailAvailable (VStr "new@example.com");
          EmailRemove (VNum 7) VUndef;
          SetUserField (VNum 7) "email" (VStr "new@example.com");
          ConfirmByUid (VNum 7)].
Proof.
  destruct (email_callback_admin_sets_email_of_other Fixture.forum (Fixture.request_of 1) true
              (Fixture.start {[ "uid" := VNum 7; "updateEmail" := VBool true ]}
                             {[ "email" := VStr " new@example.com " ]}))
    as (st' & Hrun & Htrace & _); [vm_compute; reflexivity .. |].
  exists st'. split; [exact Hrun |]. exact Htrace.
Defined.

(** C1, as the code has it.  On an existing-account draft, with a
    non-empty submitted email that the bus allows, that is well-formed and
    that the same-email checks let through, an actor who cannot administer
    users and to whom the privilege service grants no edit right on the
    target account is refused with [no-privileges], whatever the answer of
    the password check; the draft and the session are left as they were and
    no account is changed. *)
Theorem email_callback_no_privileges :
  forall (E : Env) (rq : request) (hasPassword : bool) (st : cbstate),
    let uid := get (cb_userData st) "uid" in
    let email := trimmed (get (cb_formData st) "email") in
    let fields := user_getUserFields E uid ["email"; "email:confirmed"] in
    truthy uid = true ->
    has_length email = true ->
    truthy (fst (fire_saveEmail E uid email false)) = true ->
    utils_isEmailValid E email = true ->
    (strict_eq email (get fields "email") = false
     \/ (truthy (get fields "email:confirmed") = false
         /\ email_canSendValidation E uid (get fields "email") = true)) ->
    users_canEdit E (req_uid rq) uid = false ->
    exists (st' : cbstate) (evs : list event),
      Interstitials.email_callback E rq false hasPassword st
      = (Throw "[[error:no-privileges]]", st')
      /\ cb_userData st' = cb_userData st
      /\ cb_session st' = cb_session st
      /\ added st st' evs
      /\ forallb (fun e => negb (is_mutation e)) evs = true.
Proof.
  intros E rq hp st uid email fields Huid Hlen Hallow Hvalid Hsame Hedit.
  subst uid email fields.
  destruct (has_length_trimmed _ Hlen) as [Htruthy Htrim].
  rewrite Htrim in *.
  unfold Interstitials.email_callback. exec.
  rewrite Htruthy. exec. rewrite Huid. exec.
  rewrite get_set_ne by done.
  rewrite Hedit.
  destruct (user_isPasswordCorrect E _ _ _); simpl; exec;
    rewrite Hlen, Hallow, Hvalid; simpl; exec;
    (destruct Hsame as [Hdiff | [Hunconfirmed Hsend]];
     [ rewrite Hdiff
     | destruct (strict_eq _ _); [rewrite Hunconfirmed; exec; rewrite Hsend; simpl |] ]);
    exec; unfold throw;
    (eexists; eexists; split; [reflexivity |]; simpl; repeat split;
     [ unfold added; simpl; rewrite <- !app_assoc; simpl; reflexivity | reflexivity ]).
Qed.

Lemma email_callback_no_privileges_witness :
  exists (st' : cbstate) (evs : list event),
    Interstitials.email_callback Fixture.forum (Fixture.request_of 5) false true
      (Fixture.start {[ "uid" := VNum 7; "updateEmail" := VBool true ]}
                     {[ "email" := VStr "new@example.com"; "password" := VStr "secret" ]})
    = (Throw "[[error:no-privileges]]", st')
    /\ cb_userData st' = {[ "uid" := VNum 7; "updateEmail" := VBool true ]}
    /\ cb_session st' = {[ "id" := VStr "s3ss10n" ]}
    /\ added (Fixture.start {[ "uid" := VNum 7; "updateEmail" := VBool true ]}
                {[ "email" := VStr "new@example.com"; "password" := VStr "secret" ]})
             st' evs
    /\ forallb (fun e => negb (is_mutation e)) evs = true.
Proof.
  refine (email_callback_no_privileges Fixture.forum (Fixture.request_of 5) true
            (Fixture.start {[ "uid" := VNum 7; "updateEmail" := VBool true ]}
               {[ "email" := VStr "new@example.com"; "password" := VStr "secret" ]})
            _ _ _ _ _ _).
  - vm_compute; reflexivity.
  - vm_compute; reflexivity.
  - vm_compute; reflexivity.
  - vm_compute; reflexivity.
  - left. vm_compute; reflexivity.
  - vm_compute; reflexivity.
Defined.

(** C1 as stated does not hold: an actor who cannot administer users and
    submits a non-empty email for an account that is not their own is not
    always answered [no-privileges].  Account 5 submitting an ill-formed
    address, or the current confirmed address, for account 7 is answered
    [invalid-email], respectively [email-nochange]; the global moderator 2,
    who may edit account 7, succeeds with the password of that account and
    is answered [invalid-password] without it. *)
Lemma email_callback_no_privileges_counterexample :
  let draft : obj := {[ "uid" := VNum 7; "updateEmail" := VBool true ]} in
  let run (requester : Z) (form : obj) :=
    fst (Interstitials.email_callback Fixture.forum (Fixture.request_of requester)
           (admin_can Fixture.forum "admin:users" (VNum requester))
           (user_hasPassword Fixture.forum (VNum 7))
           (Fixture.start draft form)) in
  admin_can Fixture.forum "admin:users" (VNum 5) = false
  /\ admin_can Fixture.forum "admin:users" (VNum 2) = false
  /\ run 5 {[ "email" := VStr "nobody"; "password" := VStr "secret" ]}
     = Throw "[[error:invalid-email]]"
  /\ run 5 {[ "email" := VStr "old@example.com"; "password" := VStr "secret" ]}
     = Throw "[[error:email-nochange]]"
  /\ run 2 {[ "email" := VStr "new@example.com"; "password" := VStr "secret" ]}
     = Ok tt
  /\ run 2 {[ "email" := VStr "new@example.com"; "password" := VStr "guess" ]}
     = Throw "[[error:invalid-password]]".
Proof. vm_compute. repeat split. Qed.

(** C3, as the code has it.  On an existing-account draft, when the
    submitted email, trimmed and non-empty, is the current email of the
    account and that email is confirmed, the callback fails and changes
    neither the draft, nor the session, nor any account; the error is
    [email-nochange] when the bus allows the change and the address is
    well-formed, and the error of the bus payload otherwise, since that
    test comes first. *)
Theorem email_callback_same_confirmed_email :
  forall (E : Env) (rq : request) (canManageUsers hasPassword : bool) (st : cbstate),
    let uid := get (cb_userData st) "uid" in
    let email := trimmed (get (cb_formData st) "email") in
    let fields := user_getUserFields E uid ["email"; "email:confirmed"] in
    let hook := fire_saveEmail E uid email false in
    truthy uid = true ->
    has_length email = true ->
    strict_eq email (get fields "email") = true ->
    truthy (get fields "email:confirmed") = true ->
    exists (st' : cbstate) (evs : list event),
      Interstitials.email_callback E rq canManageUsers hasPassword st
      = (Throw (if truthy (fst hook) && utils_isEmailValid E email
                then "[[error:email-nochange]]"
                else error_message (snd hook)), st')
      /\ cb_userData st' = cb_userData st
      /\ cb_session st' = cb_session st
      /\ added st st' evs
      /\ forallb (fun e => negb (is_mutation e)) evs = true.
Proof.
  intros E rq cm hp st uid email fields hook Huid Hlen Hsame Hconfirmed.
  subst uid email fields hook.
  destruct (has_length_trimmed _ Hlen) as [Htruthy Htrim].
  rewrite Htrim in *.
  unfold Interstitials.email_callback. exec.
  rewrite Htruthy. exec. rewrite Huid. exec.
  rewrite get_set_ne by done.
  destruct (negb cm && negb (user_isPasswordCorrect E _ _ _)); exec;
    rewrite Hlen;
    (destruct (truthy (fst (fire_saveEmail E _ _ _))); simpl;
     [ destruct (utils_isEmailValid E _); simpl;
       [ exec; rewrite Hsame, Hconfirmed; exec | exec ]
     | exec ]);
    unfold throw;
    (eexists; eexists; split; [reflexivity |]; simpl; repeat split;
     [ unfold added; simpl; rewrite <- !app_assoc; simpl; reflexivity | reflexivity ]).
Qed.

Lemma email_callback_same_confirmed_email_witness :
  exists (st' : cbstate) (evs : list event),
    Interstitials.email_callback Fixture.forum (Fixture.request_of 7) false true
      (Fixture.start {[ "uid" := VNum 7; "updateEmail" := VBool true ]}
                     {[ "email" := VStr "old@example.com "; "password" := VStr "secret" ]})
    = (Throw "[[error:email-nochange]]", st')
    /\ cb_userData st' = {[ "uid" := VNum 7; "updateEmail" := VBool true ]}
    /\ cb_session st' = {[ "id" := VStr "s3ss10n" ]}
    /\ added (Fixture.start {[ "uid" := VNum 7; "updateEmail" := VBool true ]}
                {[ "email" := VStr "old@example.com "; "password" := VStr "secret" ]})
             st' evs
    /\ forallb (fun e => negb (is_mutation e)) evs = true.
Proof.
  refine (email_callback_same_confirmed_email Fixture.forum (Fixture.request_of 7) false true
            (Fixture.start {[ "uid" := VNum 7; "updateEmail" := VBool true ]}
               {[ "email" := VStr "old@example.com "; "password" := VStr "secret" ]})
            _ _ _ _);
    vm_compute; reflexivity.
Defined.

(** C3 as stated does not hold: when a plugin on the bus refuses the
    change, account 7 submitting its own current, confirmed address with
    the right password is answered the error of the plugin, not
    [email-nochange]. *)
Lemma email_callback_same_confirmed_email_counterexample :
  let E := Fixture.forum_with_veto in
  let fields := user_getUserFields E (VNum 7) ["email"; "email:confirmed"] in
  get fields "email" = VStr "old@example.com"
  /\ truthy (get fields "email:confirmed") = true
  /\ fst (Interstitials.email_callback E (Fixture.request_of 7)
            (admin_can E "admin:users" (VNum 7)) (user_hasPassword E (VNum 7))
            (Fixture.start {[ "uid" := VNum 7; "updateEmail" := VBool true ]}
               {[ "email" := VStr "old@example.com"; "password" := VStr "secret" ]}))
     = Throw "[[error:email-domain-blocked]]".
Proof. vm_compute. repeat split. Qed.

(** C8.  On an existing-account draft, when the actor cannot administer
    users and the password check failed, the trace of the callback is the
    four joined lookups, in the order in which they are started, then the
    two-second sleep, then everything else: the sleep is awaited after the
    join and before any event that depends on the submitted email, it
    happens exactly once, and none of the joined lookups comes after it. *)
Theorem email_callback_throttles_wrong_password :
  forall (E : Env) (rq : request) (hasPassword : bool) (st : cbstate),
    let uid := get (cb_userData st) "uid" in
    let email := trimmed (get (cb_formData st) "email") in
    let password := get (cb_formData st) "password" in
    truthy uid = true ->
    user_isPasswordCorrect E uid password (req_ip rq) = false ->
    exists post : list event,
      added st (snd (Interstitials.email_callback E rq false hasPassword st))
        ([IsPasswordCorrect uid password (req_ip rq);
          CanEdit (req_uid rq) uid;
          GetUserFields uid ["email"; "email:confirmed"];
          FireSaveEmail uid email false;
          Sleep 2000] ++ post)
      /\ forallb (fun e => negb (is_sleep e) && negb (is_joined_lookup e)) post = true.
Proof.
  intros E rq hp st uid email password Huid Hwrong.
  subst uid email password.
  destruct (Interstitials.email_callback E rq false hp st) as [r st'] eqn:Hrun.
  revert Hrun. unfold Interstitials.email_callback, trimmed. exec.
  destruct (truthy (get (cb_formData st) "email")) eqn:Hsubmitted; exec;
    rewrite Huid; exec; rewrite ?get_set_ne by done; rewrite Hwrong; simpl; exec.
  all: repeat (branch; exec).
  all: try (destruct (get (user_getUserFields E _ _) "email"); unfold length_prop; exec;
            repeat (branch; exec)).
  all: finish; intros Hrun; injection Hrun as <- <-.
  all: eexists; split;
    [ unfold added; simpl; rewrite <- !app_assoc; simpl; reflexivity | reflexivity ].
Qed.

Lemma email_callback_throttles_wrong_password_witness :
  exists post : list event,
    cb_trace
      (snd (Interstitials.email_callback Fixture.forum (Fixture.request_of 5) false true
              (Fixture.start {[ "uid" := VNum 7; "updateEmail" := VBool true ]}
                 {[ "email" := VStr "new@example.com"; "password" := VStr "guess" ]})))
    = ([IsPasswordCorrect (VNum 7) (VStr "guess") (VStr "203.0.113.9");
        CanEdit (VNum 5) (VNum 7);
        GetUserFields (VNum 7) ["email"; "email:confirmed"];
        FireSaveEmail (VNum 7) (VStr "new@example.com") false;
        Sleep 2000] ++ post)%list
    /\ forallb (fun e => negb (is_sleep e) && negb (is_joined_lookup e)) post = true.
Proof.
  refine (email_callback_throttles_wrong_password Fixture.forum (Fixture.request_of 5) true
            (Fixture.start {[ "uid" := VNum 7; "updateEmail" := VBool true ]}
               {[ "email" := VStr "new@example.com"; "password" := VStr "guess" ]})
            _ _);
    vm_compute; reflexivity.
Defined.

(** What [Interstitials.email] contributes when the draft is flagged
    [updateEmail]: one interstitial, whose callback closes over the request
    and over the two lookups made by the step. *)
Lemma email_pushes_interstitial (E : Env) (d : data) (u : obj) (t : list event) :
  userData d = Some u ->
  truthy (get u "updateEmail") = true ->
  let uid := get u "uid" in
  let canManageUsers := admin_can E "admin:users" (req_uid (req d)) in
  let hasPassword := user_hasPassword E uid in
  exists (i : interstitial) (t' : list event),
    Interstitials.email E d t = (Ok (push d i), t')
    /\ template i = "partials/email_update"
    /\ get (idata i) "issuePasswordChallenge"
       = VBool (Interstitials.issuePasswordChallenge canManageUsers hasPassword uid
                  (req_uid (req d)))
    /\ icallback i
       = AsyncCallback (Interstitials.email_callback E (req d) canManageUsers hasPassword).
Proof.
  intros Hu Hflag uid cm hp. subst uid cm hp.
  unfold Interstitials.email. rewrite Hu, Hflag. simpl negb. cbn iota.
  exec. destruct (truthy (get u "uid")); exec; unfold ret;
    (eexists; eexists; split; [reflexivity |]; simpl; repeat split;
     rewrite get_set_ne by done; rewrite get_set_ne by done; apply get_set_eq).
Qed.

(** Where the code and the wording of the specification agree: for an
    actor who can administer users, and for one who cannot whenever "the
    draft has a uid" and "the draft is the actor's own account" coincide. *)
Lemma issuePasswordChallenge_agrees_with_spec
    (canManageUsers hasPassword : bool) (uid requester : value) :
  (canManageUsers = false -> strict_eq uid requester = truthy uid) ->
  Interstitials.issuePasswordChallenge canManageUsers hasPassword uid requester
  = issuePasswordChallenge_spec canManageUsers hasPassword uid requester.
Proof.
  intros Hown. unfold Interstitials.issuePasswordChallenge, issuePasswordChallenge_spec.
  destruct canManageUsers; [reflexivity |]. by rewrite Hown.
Qed.

(** C2, as the code has it.  For a draft with [updateEmail] set, the
    rendered [issuePasswordChallenge] is a boolean, and it is true exactly
    when the target account has a password and either the actor can
    administer users and the uid of the draft is the uid of the request, or
    the actor cannot administer users and the draft has a uid: for an actor
    who cannot administer users the draft need not be the actor's own. *)
Theorem email_issuePasswordChallenge_rendered :
  forall (E : Env) (d : data) (u : obj) (t : list event),
    let uid := get u "uid" in
    let requester := req_uid (req d) in
    let canManageUsers := admin_can E "admin:users" requester in
    let hasPassword := user_hasPassword E uid in
    userData d = Some u ->
    truthy (get u "updateEmail") = true ->
    exists flag : bool,
      rendered (Interstitials.email E d t) "issuePasswordChallenge" = Some (VBool flag)
      /\ (flag = true <->
          hasPassword = true
          /\ ((canManageUsers = true /\ uid = requester)
              \/ (canManageUsers = false /\ truthy uid = true))).
Proof.
  intros E d u t uid requester cm hp Hu Hflag.
  destruct (email_pushes_interstitial E d u t Hu Hflag) as (i & t' & Hrun & _ & Hdata & _).
  eexists. split.
  - rewrite Hrun. unfold rendered, push. simpl. rewrite last_snoc. simpl.
    rewrite Hdata. reflexivity.
  - fold uid requester cm hp. unfold Interstitials.issuePasswordChallenge, strict_eq.
    destruct hp, cm; cbn [andb orb negb]; rewrite ?orb_false_r, ?bool_decide_eq_true;
      intuition congruence.
Qed.

Lemma email_issuePasswordChallenge_rendered_witness :
  exists flag : bool,
    rendered
      (Interstitials.email Fixture.forum
         {| req := Fixture.request_of 1;
            userData := Some {[ "uid" := VNum 7; "updateEmail" := VBool true ]};
            interstitials := [] |} [])
      "issuePasswordChallenge" = Some (VBool flag)
    /\ flag = false.
Proof.
  destruct (email_issuePasswordChallenge_rendered Fixture.forum
              {| req := Fixture.request_of 1;
                 userData := Some {[ "uid" := VNum 7; "updateEmail" := VBool true ]};
                 interstitials := [] |}
              {[ "uid" := VNum 7; "updateEmail" := VBool true ]} [])
    as (flag & Hrendered & _); [reflexivity | vm_compute; reflexivity |].
  exists flag. split; [exact Hrendered |].
  vm_compute in Hrendered. congruence.
Defined.

(** C2 as stated does not hold: account 5, which cannot administer users,
    editing account 7, which has a password, is shown the password
    challenge although the draft is not its own account. *)
Lemma email_issuePasswordChallenge_counterexample :
  let E := Fixture.forum in
  let d := {| req := Fixture.request_of 5;
              userData := Some {[ "uid" := VNum 7; "updateEmail" := VBool true ]};
              interstitials := [] |} in
  rendered (Interstitials.email E d []) "issuePasswordChallenge" = Some (VBool true)
  /\ issuePasswordChallenge_spec (admin_can E "admin:users" (VNum 5))
       (user_hasPassword E (VNum 7)) (VNum 7) (VNum 5) = false.
Proof. vm_compute. split; reflexivity. Qed.

(** ** The consent step *)

(** C5, as the code has it.  For every draft and every submitted form the
    callback never throws; it sets the consent flag of the draft to [true]
    exactly when both toggles are submitted as ['on'], and it hands [null]
    to the continuation exactly when both toggles are ['on'] or the draft
    already carries a truthy consent flag; otherwise the continuation
    receives the denial error and the draft is as it was. *)
Theorem gdpr_callback_outcome :
  forall st : cbstate,
    let agreed :=
      strict_eq (get (cb_formData st) "gdpr_agree_data") (VStr "on")
      && strict_eq (get (cb_formData st) "gdpr_agree_email") (VStr "on") in
    let already := truthy (get (cb_userData st) "gdpr_consent") in
    Interstitials.gdpr_callback st
    = (Ok (if agreed || already then None else Some "[[register:gdpr_consent_denied]]"),
       {| cb_userData :=
            if agreed then set (cb_userData st) "gdpr_consent" (VBool true)
            else cb_userData st;
          cb_formData := cb_formData st;
          cb_session := cb_session st;
          cb_trace := cb_trace st |}).
Proof.
  intros [u f sess t] agreed already. subst agreed already.
  unfold Interstitials.gdpr_callback. exec.
  destruct (strict_eq (get f "gdpr_agree_data") (VStr "on")
            && strict_eq (get f "gdpr_agree_email") (VStr "on")); exec; unfold ret.
  - reflexivity.
  - simpl. destruct (truthy (get u "gdpr_consent")); reflexivity.
Qed.

(** C5 as stated does not hold for every draft: on a draft that already
    carries the consent flag, a submission with neither toggle continues
    successfully. *)
Lemma gdpr_callback_counterexample :
  let st := Fixture.start {[ "username" := VStr "ada"; "gdpr_consent" := VBool true ]} ∅ in
  get (cb_formData st) "gdpr_agree_data" = VUndef
  /\ get (cb_formData st) "gdpr_agree_email" = VUndef
  /\ Interstitials.gdpr_callback st = (Ok None, st).
Proof. vm_compute. repeat split. Qed.

(** C10.  [Interstitials.gdpr] returns its input as it is, without error
    and without any lookup, whenever consent collection is not enabled,
    also when the draft account is absent; it throws only when consent
    collection is enabled, and then only the missing-draft error for an
    absent draft.  [Interstitials.tou] throws the missing-draft error for an
    absent draft whatever the configuration. *)
Theorem gdpr_checks_config_before_draft :
  forall (E : Env) (d : data) (t : list event),
    (truthy (Interstitials.cfg E "gdpr_enabled") = false ->
     Interstitials.gdpr E d t = (Ok d, t))
    /\ (forall (msg : string) (t' : list event),
          Interstitials.gdpr E d t = (Throw msg, t') ->
          truthy (Interstitials.cfg E "gdpr_enabled") = true
          /\ userData d = None /\ msg = "[[error:invalid-data]]" /\ t' = t)
    /\ (userData d = None ->
        Interstitials.tou E d t = (Throw "[[error:invalid-data]]", t)).
Proof.
  intros E d t. split; [| split].
  - intros Hoff. unfold Interstitials.gdpr. rewrite Hoff. reflexivity.
  - intros msg t'. unfold Interstitials.gdpr.
    destruct (truthy (Interstitials.cfg E "gdpr_enabled")); simpl; [| discriminate].
    destruct (userData d) as [u |].
    + destruct (truthy (get u "gdpr_consent")); [discriminate |].
      exec. destruct (truthy (get u "uid")); exec;
        repeat (branch; exec); discriminate.
    + unfold throw. intros [= <- <-]. done.
  - intros Hnone. unfold Interstitials.tou. rewrite Hnone. reflexivity.
Qed.

Lemma gdpr_checks_config_before_draft_witness :
  let absent := {| req := Fixture.request_of 0; userData := None; interstitials := [] |} in
  Interstitials.gdpr Fixture.forum_without_gdpr absent [] = (Ok absent, [])
  /\ Interstitials.gdpr Fixture.forum absent [] = (Throw "[[error:invalid-data]]", [])
  /\ truthy (Interstitials.cfg Fixture.forum "gdpr_enabled") = true
  /\ Interstitials.tou Fixture.forum_without_gdpr absent [] = (Throw "[[error:invalid-data]]", []).
Proof.
  intro absent.
  destruct (gdpr_checks_config_before_draft Fixture.forum_without_gdpr absent [])
    as (Hoff & _ & Htou).
  destruct (gdpr_checks_config_before_draft Fixture.forum absent []) as (_ & Hon & _).
  assert (Hthrow : Interstitials.gdpr Fixture.forum absent [] = (Throw "[[error:invalid-data]]", []))
    by (vm_compute; reflexivity).
  split; [apply Hoff; vm_compute; reflexivity |].
  split; [exact Hthrow |].
  split; [exact (proj1 (Hon _ _ Hthrow)) |].
  apply Htou. reflexivity.
Defined.

(** ** The terms-of-use step *)

(** C7.  When the terms-of-use step applies (a terms text is configured,
    the draft carries no acceptance flag and, for an existing account, no
    acceptance is stored), the step fires the parse hook on the configured
    text and renders what the hook returns; its callback, run on that
    draft, never throws: when the submitted [agree-terms] is ['on'] it sets
    the acceptance flag to [true] and hands [null] to the continuation, and
    otherwise it leaves the draft as it was and hands the terms-rejection
    error to the continuation. *)
Theorem tou_renders_parsed_terms_and_records_agreement :
  forall (E : Env) (d : data) (u : obj) (t : list event),
    let uid := get u "uid" in
    let terms := Interstitials.cfg E "termsOfUse" in
    userData d = Some u ->
    truthy terms = true ->
    truthy (get u "acceptTos") = false ->
    (truthy uid = true ->
     parseInt_truthy (db_getObjectField E ("user:" +:+ to_string uid) "acceptTos") = false) ->
    exists (t' : list event),
      Interstitials.tou E d t
      = (Ok (push d {| template := "partials/acceptTos";
                       idata := {[ "termsOfUse" := fire_parse_post E terms ]};
                       icallback := NodeCallback Interstitials.tou_callback |}), t')
      /\ rendered (Interstitials.tou E d t) "termsOfUse" = Some (fire_parse_post E terms)
      /\ last t' = Some (FireParsePost terms)
      /\ forall (form sess : obj) (tr : list event),
           let agreed := strict_eq (get form "agree-terms") (VStr "on") in
           Interstitials.tou_callback
             {| cb_userData := u; cb_formData := form; cb_session := sess; cb_trace := tr |}
           = (Ok (if agreed then None else Some "[[register:terms_of_use_error]]"),
              {| cb_userData := if agreed then set u "acceptTos" (VBool true) else u;
                 cb_formData := form; cb_session := sess; cb_trace := tr |}).
Proof.
  intros E d u t uid terms Hu Hterms Hnot Hstored. subst uid terms.
  assert (Hrun : exists t',
             Interstitials.tou E d t
             = (Ok (push d {| template := "partials/acceptTos";
                              idata := {[ "termsOfUse" :=
                                            fire_parse_post E (Interstitials.cfg E "termsOfUse") ]};
                              icallback := NodeCallback Interstitials.tou_callback |}), t')
             /\ last t' = Some (FireParsePost (Interstitials.cfg E "termsOfUse"))).
  { unfold Interstitials.tou, Interstitials.or_empty.
    rewrite Hu, Hterms, Hnot. cbn [negb orb]. cbn iota.
    destruct (truthy (get u "uid")) eqn:Huid.
    - eexists. split; [| apply last_snoc].
      exec. rewrite (Hstored eq_refl). exec. reflexivity.
    - eexists. split; [| apply last_snoc].
      exec. reflexivity. }
  destruct Hrun as (t' & Hrun & Hlast).
  exists t'. split; [exact Hrun |]. split; [| split; [exact Hlast |]].
  - rewrite Hrun. unfold rendered, push. simpl. rewrite last_snoc. simpl.
    reflexivity.
  - intros form sess tr agreed. subst agreed.
    unfold Interstitials.tou_callback. exec.
    destruct (strict_eq (get form "agree-terms") (VStr "on")); exec; unfold ret.
    + reflexivity.
    + simpl. rewrite Hnot. reflexivity.
Qed.

Lemma tou_renders_parsed_terms_and_records_agreement_witness :
  let d := {| req := Fixture.request_of 7;
              userData := Some {[ "uid" := VNum 7 ]};
              interstitials := [] |} in
  rendered (Interstitials.tou Fixture.forum d []) "termsOfUse" = Some (VStr "Be kind.")
  /\ Interstitials.tou_callback (Fixture.start {[ "uid" := VNum 7 ]} {[ "agree-terms" := VStr "on" ]})
     = (Ok None,
        Fixture.start {[ "uid" := VNum 7; "acceptTos" := VBool true ]}
                      {[ "agree-terms" := VStr "on" ]})
  /\ Interstitials.tou_callback (Fixture.start {[ "uid" := VNum 7 ]} {[ "agree-terms" := VStr "off" ]})
     = (Ok (Some "[[register:terms_of_use_error]]"),
        Fixture.start {[ "uid" := VNum 7 ]} {[ "agree-terms" := VStr "off" ]}).
Proof.
  intro d.
  destruct (tou_renders_parsed_terms_and_records_agreement Fixture.forum d
              {[ "uid" := VNum 7 ]} [])
    as (t' & _ & Hrendered & _ & Hcallback);
    [reflexivity | vm_compute; reflexivity | vm_compute; reflexivity
    | intros _; vm_compute; reflexivity |].
  split; [exact Hrendered |].
  unfold Fixture.start. split; rewrite Hcallback; vm_compute; reflexivity.
Defined.

(** * Further properties of the callback of the email step *)

(** Unfolding of a computation down to state passing; the boolean
    connectives are unfolded too, so that every test left is on one answer
    of a collaborator or on one property of the input. *)
Ltac unfold_run :=
  cbv beta iota zeta delta
    [bind ret throw log call cb_log cb_call user_get user_set user_del
     form_get form_set session_get session_set length_prop
     cb_userData cb_formData cb_session cb_trace negb andb orb].

(** Case analysis on a test that is not itself made of tests. *)
Ltac branch_atom :=
  match goal with
  | |- context [if ?b then _ else _] =>
      lazymatch b with
      | context [if _ then _ else _] => fail
      | _ => destruct b eqn:?
      end
  | |- context [match ?o with Some _ => _ | None => _ end] => destruct o eqn:?
  end.

(** Run the callback to each of its ends. *)
Ltac explore :=
  unfold Interstitials.email_callback, trimmed; unfold_run;
  repeat (branch_atom; unfold_run; rewrite ?get_set_eq, ?get_set_ne by done);
  try (destruct (get (user_getUserFields _ _ _) "email"); unfold_run;
       repeat (branch_atom; unfold_run)).

(** The trace of a run, as the events added to the initial one. *)
Ltac trace_eq :=
  unfold added; simpl; rewrite <- ?app_assoc; simpl; reflexivity.

(** Every run of the callback, at once: what it leaves in the form, in
    the session and in the draft, and which calls it can have made. *)
Lemma email_callback_anatomy (E : Env) (rq : request) (canManageUsers hasPassword : bool)
    (st : cbstate) :
  let uid := get (cb_userData st) "uid" in
  let submitted := get (cb_formData st) "email" in
  let correct :=
    user_isPasswordCorrect E uid (get (cb_formData st) "password") (req_ip rq) in
  exists (r : result unit) (st' : cbstate) (evs : list event),
    Interstitials.email_callback E rq canManageUsers hasPassword st = (r, st')
    /\ added st st' evs
    /\ cb_formData st'
       = (if truthy submitted
          then set (cb_formData st) "email" (VStr (trim (to_string submitted)))
          else cb_formData st)
    /\ cb_session st'
       = (if existsb is_send evs
          then set (cb_session st) "emailChanged" (VNum 1)
          else cb_session st)
    /\ cb_userData st'
       = match r with
         | Throw _ => cb_userData st
         | Ok _ =>
             del (if truthy uid then cb_userData st
                  else set (cb_userData st) "email" (trimmed submitted))
                 "updateEmail"
         end
    /\ (forall msg, r = Throw msg -> none_of is_mutation evs = true)
    /\ none_of is_sleep evs = negb (truthy uid && negb canManageUsers && negb correct)
    /\ (canManageUsers = false \/ strict_eq uid (req_uid rq) = true ->
        none_of is_direct_write evs = true)
    /\ (canManageUsers = false -> hasPassword = true -> correct = false ->
        none_of is_mutation evs = true).
Proof.
  intros uid submitted correct. subst uid submitted correct.
  destruct st as [u f sess t]. cbn [cb_userData cb_formData cb_session cb_trace].
  destruct (Interstitials.email_callback E rq canManageUsers hasPassword _)
    as [r st'] eqn:Hrun.
  revert Hrun. explore.
  all: intros [= <- <-]; eexists _, _, _; split; [reflexivity |].
  all: split; [trace_eq |].
  all: cbn [cb_userData cb_formData cb_session cb_trace].
  all: repeat split; try reflexivity; try discriminate.
  all: intros; simpl in *; intuition congruence.
Qed.

(** The events a callback added are determined by its two states. *)
Lemma added_unique (before after : cbstate) (evs evs' : list event) :
  added before after evs -> added before after evs' -> evs = evs'.
Proof. unfold added. intros -> H. by apply app_inv_head in H. Qed.

(** X1.  A callback of the email step that throws leaves the draft and
    the session as they were, and none of the calls it made before the
    throw changes an account or sends a message: every refusal comes before
    the first change. *)
Theorem email_callback_throw_leaves_draft_and_accounts :
  forall (E : Env) (rq : request) (canManageUsers hasPassword : bool)
         (st st' : cbstate) (msg : string),
    Interstitials.email_callback E rq canManageUsers hasPassword st = (Throw msg, st') ->
    cb_userData st' = cb_userData st
    /\ cb_session st' = cb_session st
    /\ exists evs : list event, added st st' evs /\ none_of is_mutation evs = true.
Proof.
  intros E rq cm hp st st' msg Hrun.
  destruct (email_callback_anatomy E rq cm hp st)
    as (r & st1 & evs & Hrun1 & Hadded & _ & Hsession & Hdraft & Hthrow & _).
  rewrite Hrun in Hrun1. injection Hrun1 as <- <-.
  specialize (Hthrow msg eq_refl).
  split; [exact Hdraft |]. split.
  - rewrite Hsession.
    assert (Hsend : existsb is_send evs = false).
    { clear -Hthrow. induction evs as [| e evs IH]; [reflexivity |].
      simpl in *. apply andb_true_iff in Hthrow as [He Hevs].
      rewrite (IH Hevs). destruct e; try reflexivity; discriminate. }
    by rewrite Hsend.
  - exists evs. split; assumption.
Qed.

Lemma email_callback_throw_leaves_draft_and_accounts_witness :
  exists (st' : cbstate),
    Interstitials.email_callback Fixture.forum (Fixture.request_of 7) false true
      (Fixture.start {[ "uid" := VNum 7; "updateEmail" := VBool true ]}
         {[ "email" := VStr "new@example.com"; "password" := VStr "guess" ]})
    = (Throw "[[error:invalid-password]]", st')
    /\ cb_userData st' = {[ "uid" := VNum 7; "updateEmail" := VBool true ]}
    /\ cb_session st' = {[ "id" := VStr "s3ss10n" ]}.
Proof.
  eexists. split; [vm_compute; reflexivity |].
  match goal with
  | |- cb_userData ?s = _ /\ _ =>
      destruct (email_callback_throw_leaves_draft_and_accounts Fixture.forum (Fixture.request_of 7)
                  false true
                  (Fixture.start {[ "uid" := VNum 7; "updateEmail" := VBool true ]}
                     {[ "email" := VStr "new@example.com"; "password" := VStr "guess" ]})
                  s "[[error:invalid-password]]")
        as (Hdraft & Hsession & _); [vm_compute; reflexivity |]
  end.
  split; [exact Hdraft | exact Hsession].
Defined.

(** X2.  A callback of the email step that returns has deleted the
    [updateEmail] flag; on an existing account nothing else of the draft is
    touched, and on a new account only [email] is set, to the submitted
    value.  With the flag gone, [Interstitials.email] no longer applies to
    the draft: it returns its input and makes no lookup. *)
Theorem email_callback_success_clears_updateEmail :
  forall (E : Env) (rq : request) (canManageUsers hasPassword : bool) (st st' : cbstate),
    Interstitials.email_callback E rq canManageUsers hasPassword st = (Ok tt, st') ->
    cb_userData st'
    = del (if truthy (get (cb_userData st) "uid") then cb_userData st
           else set (cb_userData st) "email" (trimmed (get (cb_formData st) "email")))
          "updateEmail"
    /\ forall (E' : Env) (d : data) (t : list event),
         userData d = Some (cb_userData st') ->
         Interstitials.email E' d t = (Ok d, t).
Proof.
  intros E rq cm hp st st' Hrun.
  destruct (email_callback_anatomy E rq cm hp st)
    as (r & st1 & evs & Hrun1 & _ & _ & _ & Hdraft & _).
  rewrite Hrun in Hrun1. injection Hrun1 as <- <-.
  split; [exact Hdraft |].
  intros E' d t Hd. unfold Interstitials.email.
  rewrite Hd, Hdraft, get_del_eq. reflexivity.
Qed.

Lemma email_callback_success_clears_updateEmail_witness :
  exists (st' : cbstate),
    Interstitials.email_callback Fixture.forum (Fixture.request_of 7) false true
      (Fixture.start {[ "uid" := VNum 7; "updateEmail" := VBool true ]}
         {[ "email" := VStr "new@example.com"; "password" := VStr "secret" ]})
    = (Ok tt, st')
    /\ cb_userData st' = {[ "uid" := VNum 7 ]}.
Proof.
  eexists. split; [vm_compute; reflexivity |].
  match goal with
  | |- cb_userData ?s = _ =>
      destruct (email_callback_success_clears_updateEmail Fixture.forum
                  (Fixture.request_of 7) false true
                  (Fixture.start {[ "uid" := VNum 7; "updateEmail" := VBool true ]}
                     {[ "email" := VStr "new@example.com"; "password" := VStr "secret" ]})
                  s)
        as (Hdraft & _); [vm_compute; reflexivity |]
  end.
  rewrite Hdraft. vm_compute. reflexivity.
Defined.

(** X3.  Whatever its outcome, the callback of the email step changes the
    submitted form in one place at most: a truthy [email] is replaced by
    its string, trimmed; every other field, and a falsy [email], are left
    as submitted. *)
Theorem email_callback_only_trims_the_form :
  forall (E : Env) (rq : request) (canManageUsers hasPassword : bool) (st : cbstate),
    let submitted := get (cb_formData st) "email" in
    cb_formData (snd (Interstitials.email_callback E rq canManageUsers hasPassword st))
    = (if truthy submitted
       then set (cb_formData st) "email" (VStr (trim (to_string submitted)))
       else cb_formData st).
Proof.
  intros E rq cm hp st submitted.
  destruct (email_callback_anatomy E rq cm hp st)
    as (r & st' & evs & Hrun & _ & Hform & _).
  rewrite Hrun. exact Hform.
Qed.

(** X4.  The callback of the email step sleeps exactly when the draft is
    of an existing account, the actor cannot administer users and the
    password check failed: an administrator, a correct password and a
    registration are never delayed. *)
Theorem email_callback_sleeps_iff_wrong_password :
  forall (E : Env) (rq : request) (canManageUsers hasPassword : bool) (st : cbstate),
    let uid := get (cb_userData st) "uid" in
    let correct :=
      user_isPasswordCorrect E uid (get (cb_formData st) "password") (req_ip rq) in
    exists evs : list event,
      added st (snd (Interstitials.email_callback E rq canManageUsers hasPassword st)) evs
      /\ existsb is_sleep evs = truthy uid && negb canManageUsers && negb correct.
Proof.
  intros E rq cm hp st uid correct.
  destruct (email_callback_anatomy E rq cm hp st)
    as (r & st' & evs & Hrun & Hadded & _ & _ & _ & _ & Hsleep & _).
  rewrite Hrun. exists evs. split; [exact Hadded |].
  fold uid correct in Hsleep.
  rewrite <- (negb_involutive (_ && _ && _)), <- Hsleep.
  clear. unfold none_of. induction evs as [| e evs IH]; [reflexivity |].
  simpl. rewrite IH. by destruct (is_sleep e).
Qed.

(** X5.  The callback of the email step writes to the session exactly when
    it has asked for a validation email to be sent, and what it writes is
    [emailChanged = 1]. *)
Theorem email_callback_session_flag_iff_validation_sent :
  forall (E : Env) (rq : request) (canManageUsers hasPassword : bool) (st : cbstate),
    let st' := snd (Interstitials.email_callback E rq canManageUsers hasPassword st) in
    exists evs : list event,
      added st st' evs
      /\ cb_session st'
         = (if existsb is_send evs
            then set (cb_session st) "emailChanged" (VNum 1)
            else cb_session st).
Proof.
  intros E rq cm hp st st'. subst st'.
  destruct (email_callback_anatomy E rq cm hp st)
    as (r & st' & evs & Hrun & Hadded & _ & Hsession & _).
  rewrite Hrun. exists evs. split; assumption.
Qed.

(** X6.  Only an actor who can administer users, acting on a draft whose
    uid is not the uid of the request, makes the callback write an email
    to an account and confirm it without a confirmation message: for every
    other actor, and for an administrator on their own draft, neither
    [user.setUserField] nor [user.email.confirmByUid] is called. *)
Theorem email_callback_direct_write_needs_admin_on_other :
  forall (E : Env) (rq : request) (canManageUsers hasPassword : bool) (st : cbstate),
    canManageUsers = false \/ strict_eq (get (cb_userData st) "uid") (req_uid rq) = true ->
    exists evs : list event,
      added st (snd (Interstitials.email_callback E rq canManageUsers hasPassword st)) evs
      /\ none_of is_direct_write evs = true.
Proof.
  intros E rq cm hp st Hwho.
  destruct (email_callback_anatomy E rq cm hp st)
    as (r & st' & evs & Hrun & Hadded & _ & _ & _ & _ & _ & Hdirect & _).
  rewrite Hrun. exists evs. split; [exact Hadded | exact (Hdirect Hwho)].
Qed.

Lemma email_callback_direct_write_needs_admin_on_other_witness :
  exists evs : list event,
    added (Fixture.start {[ "uid" := VNum 1; "updateEmail" := VBool true ]}
             {[ "email" := VStr "new@example.com"; "password" := VStr "secret" ]})
          (snd (Interstitials.email_callback Fixture.forum (Fixture.request_of 1) true true
                  (Fixture.start {[ "uid" := VNum 1; "updateEmail" := VBool true ]}
                     {[ "email" := VStr "new@example.com"; "password" := VStr "secret" ]})))
          evs
    /\ none_of is_direct_write evs = true.
Proof.
  apply (email_callback_direct_write_needs_admin_on_other Fixture.forum
           (Fixture.request_of 1) true true).
  right. vm_compute. reflexivity.
Defined.

(** X7.  Without the password of a password-protected account, an actor
    who cannot administer users changes no account through the callback,
    whatever is submitted and whatever the privilege service answers: no
    email is removed, written or confirmed and no message is sent. *)
Theorem email_callback_wrong_password_changes_no_account :
  forall (E : Env) (rq : request) (st : cbstate),
    user_isPasswordCorrect E (get (cb_userData st) "uid")
      (get (cb_formData st) "password") (req_ip rq) = false ->
    exists evs : list event,
      added st (snd (Interstitials.email_callback E rq false true st)) evs
      /\ none_of is_mutation evs = true.
Proof.
  intros E rq st Hwrong.
  destruct (email_callback_anatomy E rq false true st)
    as (r & st' & evs & Hrun & Hadded & _ & _ & _ & _ & _ & _ & Hnone).
  rewrite Hrun. exists evs. split; [exact Hadded | exact (Hnone eq_refl eq_refl Hwrong)].
Qed.

Lemma email_callback_wrong_password_changes_no_account_witness :
  exists evs : list event,
    added (Fixture.start {[ "uid" := VNum 7; "updateEmail" := VBool true ]}
             {[ "password" := VStr "guess" ]})
          (snd (Interstitials.email_callback
                  Fixture.forum_without_gdpr (Fixture.request_of 7) false true
                  (Fixture.start {[ "uid" := VNum 7; "updateEmail" := VBool true ]}
                     {[ "password" := VStr "guess" ]})))
          evs
    /\ none_of is_mutation evs = true.
Proof.
  apply (email_callback_wrong_password_changes_no_account Fixture.forum_without_gdpr
           (Fixture.request_of 7)).
  vm_compute. reflexivity.
Defined.

(** Run the callback under hypotheses: [known] rewrites a test whose
    outcome is known, and the other tests are analysed by cases. *)
Ltac run_with known :=
  unfold Interstitials.email_callback; unfold_run;
  repeat (first [known | branch_atom]; unfold_run;
          rewrite ?get_set_eq, ?get_set_ne by done).


(** The submitted email as the callback reads it back from the form. *)
Lemma trimmed_cases (v : value) :
  (truthy v = true /\ trimmed v = VStr (trim (to_string v)))
  \/ (truthy v = false /\ trimmed v = v).
Proof. unfold trimmed. destruct (truthy v); [left | right]; done. Qed.

(** X8.  On an existing account, an empty submission (no email, or one
    that is blank once trimmed) is refused with [invalid-email] when the
    deployment requires an email address, whoever the actor is and
    whatever the password. *)
Theorem email_callback_empty_email_refused_when_required :
  forall (E : Env) (rq : request) (canManageUsers hasPassword : bool) (st : cbstate),
    truthy (get (cb_userData st) "uid") = true ->
    has_length (trimmed (get (cb_formData st) "email")) = false ->
    truthy (Interstitials.cfg E "requireEmailAddress") = true ->
    fst (Interstitials.email_callback E rq canManageUsers hasPassword st)
    = Throw "[[error:invalid-email]]".
Proof.
  intros E rq cm hp [u f sess t] Huid Hlen Hreq.
  cbn [cb_userData cb_formData] in *.
  destruct (trimmed_cases (get f "email")) as [[Hv Htrim] | [Hv Htrim]];
    rewrite Htrim in Hlen;
    run_with ltac:(first [rewrite Hv | rewrite Huid | rewrite Hlen | rewrite Hreq]);
    reflexivity.
Qed.

Lemma email_callback_empty_email_refused_when_required_witness :
  fst (Interstitials.email_callback Fixture.forum (Fixture.request_of 1) true true
         (Fixture.start {[ "uid" := VNum 7; "updateEmail" := VBool true ]}
            {[ "email" := VStr "   " ]}))
  = Throw "[[error:invalid-email]]".
Proof.
  apply (email_callback_empty_email_refused_when_required Fixture.forum
           (Fixture.request_of 1) true true); vm_compute; reflexivity.
Defined.

(** X9.  On a new-account draft the callback calls nothing but the
    ['filter:user.saveEmail'] hook, with a null uid and [registration]
    set: no password check, no sleep, no validation of the format.  It
    throws the error of the hook's payload exactly when the hook disallows
    the email or the deployment requires an email and none was submitted,
    leaving the draft as it was; otherwise it stages the submitted value,
    be it empty, as [email] and deletes [updateEmail]. *)
Theorem email_callback_new_account :
  forall (E : Env) (rq : request) (canManageUsers hasPassword : bool) (st : cbstate),
    let submitted := get (cb_formData st) "email" in
    let email := trimmed submitted in
    let hook := fire_saveEmail E VNull email true in
    let refused :=
      negb (truthy (fst hook))
      || (truthy (Interstitials.cfg E "requireEmailAddress") && negb (has_length email)) in
    truthy (get (cb_userData st) "uid") = false ->
    Interstitials.email_callback E rq canManageUsers hasPassword st
    = (if refused then Throw (error_message (snd hook)) else Ok tt,
       {| cb_userData :=
            if refused then cb_userData st
            else del (set (cb_userData st) "email" email) "updateEmail";
          cb_formData :=
            if truthy submitted then set (cb_formData st) "email" email
            else cb_formData st;
          cb_session := cb_session st;
          cb_trace := (cb_trace st ++ [FireSaveEmail VNull email true])%list |}).
Proof.
  intros E rq cm hp [u f sess t] submitted email hook refused Huid.
  subst submitted email hook refused.
  cbn [cb_userData cb_formData cb_session cb_trace] in *.
  destruct (trimmed_cases (get f "email")) as [[Hv Htrim] | [Hv Htrim]];
    rewrite Htrim;
    run_with ltac:(first [rewrite Hv | rewrite Huid]);
    reflexivity.
Qed.

Lemma email_callback_new_account_witness :
  let run :=
    Interstitials.email_callback Fixture.forum (Fixture.request_of 0) false false
      (Fixture.start {[ "username" := VStr "ada"; "updateEmail" := VBool true ]}
         {[ "email" := VStr "not an address" ]}) in
  fst run = Ok tt
  /\ get (cb_userData (snd run)) "email" = VStr "not an address"
  /\ cb_userData (snd run) !! "updateEmail" = None.
Proof.
  intro run. subst run.
  rewrite (email_callback_new_account Fixture.forum (Fixture.request_of 0) false false
             (Fixture.start {[ "username" := VStr "ada"; "updateEmail" := VBool true ]}
                {[ "email" := VStr "not an address" ]}))
    by (vm_compute; reflexivity).
  repeat split; vm_compute; reflexivity.
Defined.



(** Run the callback under hypotheses on the outcomes of its tests: each
    test is analysed by cases and the case that contradicts a hypothesis is
    closed at once. *)
Ltac run_pruned :=
  unfold Interstitials.email_callback; unfold_run;
  repeat (branch_atom; try congruence; unfold_run;
          rewrite ?get_set_eq, ?get_set_ne by done).

(** The same-email checks of lines 86-92 let the submitted email through:
    it differs from the current one, or the current one is unconfirmed and
    a confirmation may be sent again. *)
Ltac same_email_passes Hsame known :=
  destruct Hsame as [Hdiff | [Hunconfirmed Hsend]];
  [ run_with ltac:(first [known | rewrite Hdiff])
  | run_with ltac:(first [known | rewrite Hunconfirmed | rewrite Hsend]) ].

(** X11.  An actor who can administer users and edits a draft that is not
    their own is refused with [email-taken] when the submitted email,
    otherwise acceptable, is not available; the availability check is the
    last call made. *)
Theorem email_callback_admin_email_taken :
  forall (E : Env) (rq : request) (hasPassword : bool) (st : cbstate),
    let uid := get (cb_userData st) "uid" in
    let email := trimmed (get (cb_formData st) "email") in
    let fields := user_getUserFields E uid ["email"; "email:confirmed"] in
    let run := Interstitials.email_callback E rq true hasPassword st in
    truthy uid = true ->
    strict_eq uid (req_uid rq) = false ->
    has_length email = true ->
    truthy (fst (fire_saveEmail E uid email false)) = true ->
    utils_isEmailValid E email = true ->
    (strict_eq email (get fields "email") = false
     \/ (truthy (get fields "email:confirmed") = false
         /\ email_canSendValidation E uid (get fields "email") = true)) ->
    email_available E email = false ->
    fst run = Throw "[[error:email-taken]]"
    /\ last (cb_trace (snd run)) = Some (EmailAvailable email).
Proof.
  intros E rq hp [u f sess t] uid email fields run Huid Hother Hlen Hallow Hvalid Hsame
    Htaken.
  subst uid email fields run.
  cbn [cb_userData cb_formData cb_session cb_trace] in *.
  destruct (has_length_trimmed _ Hlen) as [Hv Htrim]. rewrite Htrim in *.
  same_email_passes Hsame
    ltac:(first [rewrite Hv | rewrite Huid | rewrite Hlen | rewrite Hallow | rewrite Hvalid
                | rewrite Hother | rewrite Htaken]).
  all: cbn [fst snd cb_trace]; split; [reflexivity | apply last_snoc].
Qed.

Lemma email_callback_admin_email_taken_witness :
  let run :=
    Interstitials.email_callback Fixture.forum (Fixture.request_of 1) true true
      (Fixture.start draft7 {[ "email" := VStr "taken@example.com" ]}) in
  fst run = Throw "[[error:email-taken]]"
  /\ last (cb_trace (snd run)) = Some (EmailAvailable (VStr "taken@example.com")).
Proof.
  refine (email_callback_admin_email_taken Fixture.forum (Fixture.request_of 1) true
            (Fixture.start draft7 {[ "email" := VStr "taken@example.com" ]})
            _ _ _ _ _ _ _); try (vm_compute; reflexivity).
  left. vm_compute. reflexivity.
Defined.

(** X12.  On the path of an actor with edit rights who is not an
    administrator acting on another's draft, an acceptable email and a
    satisfied password requirement (the account has no password, or the
    check succeeded) make the callback ask for a forced validation email,
    set [emailChanged] in the session, delete [updateEmail] and return;
    this is the only change it makes.  A validation email that fails to
    send is logged through winston and does not make the callback fail. *)
Theorem email_callback_sends_validation_email :
  forall (E : Env) (rq : request) (canManageUsers hasPassword : bool) (st : cbstate),
    let uid := get (cb_userData st) "uid" in
    let email := trimmed (get (cb_formData st) "email") in
    let fields := user_getUserFields E uid ["email"; "email:confirmed"] in
    let correct :=
      user_isPasswordCorrect E uid (get (cb_formData st) "password") (req_ip rq) in
    let run := Interstitials.email_callback E rq canManageUsers hasPassword st in
    truthy uid = true ->
    has_length email = true ->
    truthy (fst (fire_saveEmail E uid email false)) = true ->
    utils_isEmailValid E email = true ->
    (strict_eq email (get fields "email") = false
     \/ (truthy (get fields "email:confirmed") = false
         /\ email_canSendValidation E uid (get fields "email") = true)) ->
    canManageUsers = false \/ strict_eq uid (req_uid rq) = true ->
    users_canEdit E (req_uid rq) uid = true ->
    hasPassword = false \/ correct = true ->
    fst run = Ok tt
    /\ cb_userData (snd run) = del (cb_userData st) "updateEmail"
    /\ cb_session (snd run) = set (cb_session st) "emailChanged" (VNum 1)
    /\ exists evs : list event,
         added st (snd run) evs
         /\ filter (fun e => is_mutation e) evs = [SendValidationEmail uid email true]
         /\ filter (fun e => is_log e) evs
            = match email_sendValidationEmail E uid email true with
              | Some stack =>
                  [WinstonError
                     ("[user.interstitials.email] Validation email failed to send"
                        +:+ newline +:+ "[emailer.send] " +:+ stack)]
              | None => []
              end.
Proof.
  intros E rq cm hp [u f sess t] uid email fields correct run Huid Hlen Hallow Hvalid Hsame
    Hwho Hedit Hpassword.
  subst uid email fields correct run.
  cbn [cb_userData cb_formData cb_session cb_trace] in *.
  destruct (has_length_trimmed _ Hlen) as [Hv Htrim]. rewrite Htrim in *.
  run_pruned.
  all: cbn [fst snd cb_userData cb_session cb_trace].
  all: try (exfalso; intuition congruence).
  all: split; [reflexivity |]; split; [reflexivity |]; split; [reflexivity |].
  all: eexists; split; [trace_eq |]; split; reflexivity.
Qed.

Lemma email_callback_sends_validation_email_witness :
  let run :=
    Interstitials.email_callback
      (forum_variant Fixture.forum_config 1 false (Some "Error: connect ECONNREFUSED"))
      (Fixture.request_of 7) false true
      (Fixture.start draft7
         {[ "email" := VStr "new@example.com"; "password" := VStr "secret" ]}) in
  fst run = Ok tt
  /\ cb_userData (snd run) = {[ "uid" := VNum 7 ]}
  /\ get (cb_session (snd run)) "emailChanged" = VNum 1.
Proof.
  intro run. subst run.
  destruct (email_callback_sends_validation_email
              (forum_variant Fixture.forum_config 1 false (Some "Error: connect ECONNREFUSED"))
              (Fixture.request_of 7) false true
              (Fixture.start draft7
                 {[ "email" := VStr "new@example.com"; "password" := VStr "secret" ]}))
    as (Hok & Hdraft & Hsession & _); try (vm_compute; reflexivity).
  - left. vm_compute. reflexivity.
  - left. reflexivity.
  - right. vm_compute. reflexivity.
  - split; [exact Hok |]. split.
    + rewrite Hdraft. vm_compute. reflexivity.
    + rewrite Hsession. vm_compute. reflexivity.
Defined.

(** X13.  On the path of an actor with edit rights who is not an
    administrator acting on another's draft, an acceptable email is
    refused with [invalid-password] when the account has a password and
    the password check failed; this holds for an administrator editing
    their own draft as well. *)
Theorem email_callback_invalid_password :
  forall (E : Env) (rq : request) (canManageUsers : bool) (st : cbstate),
    let uid := get (cb_userData st) "uid" in
    let email := trimmed (get (cb_formData st) "email") in
    let fields := user_getUserFields E uid ["email"; "email:confirmed"] in
    truthy uid = true ->
    has_length email = true ->
    truthy (fst (fire_saveEmail E uid email false)) = true ->
    utils_isEmailValid E email = true ->
    (strict_eq email (get fields "email") = false
     \/ (truthy (get fields "email:confirmed") = false
         /\ email_canSendValidation E uid (get fields "email") = true)) ->
    canManageUsers = false \/ strict_eq uid (req_uid rq) = true ->
    users_canEdit E (req_uid rq) uid = true ->
    user_isPasswordCorrect E uid (get (cb_formData st) "password") (req_ip rq) = false ->
    fst (Interstitials.email_callback E rq canManageUsers true st)
    = Throw "[[error:invalid-password]]".
Proof.
  intros E rq cm [u f sess t] uid email fields Huid Hlen Hallow Hvalid Hsame Hwho Hedit
    Hwrong.
  subst uid email fields.
  cbn [cb_userData cb_formData cb_session cb_trace] in *.
  destruct (has_length_trimmed _ Hlen) as [Hv Htrim]. rewrite Htrim in *.
  run_pruned.
  all: cbn [fst]; try reflexivity.
  all: exfalso; intuition congruence.
Qed.

Lemma email_callback_invalid_password_witness :
  fst (Interstitials.email_callback Fixture.forum (Fixture.request_of 1) true true
         (Fixture.start {[ "uid" := VNum 1; "updateEmail" := VBool true ]}
            {[ "email" := VStr "new@example.com"; "password" := VStr "guess" ]}))
  = Throw "[[error:invalid-password]]".
Proof.
  refine (email_callback_invalid_password Fixture.forum (Fixture.request_of 1) true
            (Fixture.start {[ "uid" := VNum 1; "updateEmail" := VBool true ]}
               {[ "email" := VStr "new@example.com"; "password" := VStr "guess" ]})
            _ _ _ _ _ _ _ _); try (vm_compute; reflexivity).
  - left. vm_compute. reflexivity.
  - right. vm_compute. reflexivity.
Defined.



(** * Further properties of the steps *)

(** Run a step to each of its ends. *)
Ltac explore_step :=
  unfold Interstitials.email, Interstitials.gdpr, Interstitials.tou; unfold_run;
  repeat (branch_atom; unfold_run).

(** X15.  Each of the three built-in steps, when it returns, hands back the
    request and the draft it was given, and the list of interstitials it
    was given with at most one entry appended: a step never drops,
    replaces or reorders what earlier steps contributed. *)
Theorem steps_only_append :
  forall (step : Env -> data -> M (list event) data),
    In step [Interstitials.email; Interstitials.gdpr; Interstitials.tou] ->
    forall (E : Env) (d d' : data) (t t' : list event),
      step E d t = (Ok d', t') ->
      req d' = req d
      /\ userData d' = userData d
      /\ (interstitials d' = interstitials d
          \/ exists i : interstitial, interstitials d' = (interstitials d ++ [i])%list).
Proof.
  intros step Hstep E d d' t t'.
  destruct Hstep as [<- | [<- | [<- | []]]];
    (explore_step; intros [= <- <-]; cbn [req userData interstitials push];
     (split; [reflexivity |]); (split; [done |]);
     first [left; reflexivity | right; eexists; reflexivity]).
Qed.

Lemma steps_only_append_witness :
  let d := {| req := Fixture.request_of 0;
              userData := Some {[ "username" := VStr "ada" ]};
              interstitials := [] |} in
  exists (d' : data) (t' : list event),
    Interstitials.tou Fixture.forum d [] = (Ok d', t')
    /\ req d' = req d
    /\ userData d' = userData d
    /\ length (interstitials d') = 1%nat.
Proof.
  intro d.
  destruct (Interstitials.tou Fixture.forum d []) as [[d' | msg] t'] eqn:Hrun;
    [| discriminate Hrun].
  exists d', t'. split; [reflexivity |].
  destruct (steps_only_append Interstitials.tou
              (or_intror (or_intror (or_introl eq_refl))) Fixture.forum d d' [] t' Hrun)
    as (Hreq & Hdraft & _).
  split; [exact Hreq |]. split; [exact Hdraft |].
  injection Hrun as <- _. reflexivity.
Defined.

(** X16.  The only error a built-in step raises is [invalid-data], and it
    raises it only for an absent draft, before any lookup. *)
Theorem steps_throw_only_without_draft :
  forall (step : Env -> data -> M (list event) data),
    In step [Interstitials.email; Interstitials.gdpr; Interstitials.tou] ->
    forall (E : Env) (d : data) (t t' : list event) (msg : string),
      step E d t = (Throw msg, t') ->
      userData d = None /\ msg = "[[error:invalid-data]]" /\ t' = t.
Proof.
  intros step Hstep E d t t' msg.
  destruct Hstep as [<- | [<- | [<- | []]]];
    (explore_step; intros [= <- <-]; done).
Qed.

Lemma steps_throw_only_without_draft_witness :
  let d := {| req := Fixture.request_of 0; userData := None; interstitials := [] |} in
  Interstitials.email Fixture.forum d [] = (Throw "[[error:invalid-data]]", [])
  /\ userData d = None.
Proof.
  intro d.
  assert (Hrun : Interstitials.email Fixture.forum d [] = (Throw "[[error:invalid-data]]", []))
    by reflexivity.
  split; [exact Hrun |].
  exact (proj1 (steps_throw_only_without_draft Interstitials.email (or_introl eq_refl)
                  Fixture.forum d [] [] _ Hrun)).
Defined.

(** X17.  When the draft is flagged [updateEmail], [Interstitials.email]
    asks, in this order, whether the requester can administer users,
    whether the account of the draft has a password and whether a
    validation is pending, and fetches the current email only for a draft
    with a uid; it renders that email ([undefined] for a new account), the
    configured [requireEmailAddress] and the pending flag under the
    template [partials/email_update]. *)
Theorem email_renders_current_email :
  forall (E : Env) (d : data) (u : obj) (t : list event),
    let uid := get u "uid" in
    let run := Interstitials.email E d t in
    userData d = Some u ->
    truthy (get u "updateEmail") = true ->
    snd run
    = (t ++ [AdminCan "admin:users" (req_uid (req d)); HasPassword uid;
             IsValidationPending uid]
         ++ (if truthy uid then [GetUserField uid "email"] else []))%list
    /\ rendered run "email"
       = Some (if truthy uid then user_getUserField E uid "email" else VUndef)
    /\ rendered run "requireEmailAddress"
       = Some (Interstitials.cfg E "requireEmailAddress")
    /\ rendered run "hasPending" = Some (VBool (email_isValidationPending E uid))
    /\ (template <$> (match fst run with
                      | Ok d' => last (interstitials d')
                      | Throw _ => None
                      end))
       = Some "partials/email_update".
Proof.
  intros E d u t uid run Hu Hflag. subst uid run.
  unfold Interstitials.email. rewrite Hu, Hflag. unfold_run.
  destruct (truthy (get u "uid")); unfold_run;
    unfold rendered, push; cbn [fst snd interstitials]; rewrite last_snoc;
    cbn [fmap option_fmap option_map idata template];
    (split; [by rewrite <- ?app_assoc |]);
    repeat split; f_equal;
    rewrite ?get_set_eq; try reflexivity;
    repeat (rewrite get_set_ne by done); apply get_set_eq.
Qed.

Lemma email_renders_current_email_witness :
  let run :=
    Interstitials.email Fixture.forum
      {| req := Fixture.request_of 0;
         userData := Some {[ "username" := VStr "ada"; "updateEmail" := VBool true ]};
         interstitials := [] |} [] in
  snd run = [AdminCan "admin:users" (VNum 0); HasPassword VUndef; IsValidationPending VUndef]
  /\ rendered run "email" = Some VUndef.
Proof.
  intro run. subst run.
  destruct (email_renders_current_email Fixture.forum
              {| req := Fixture.request_of 0;
                 userData := Some {[ "username" := VStr "ada"; "updateEmail" := VBool true ]};
                 interstitials := [] |}
              {[ "username" := VStr "ada"; "updateEmail" := VBool true ]} [])
    as (Htrace & Hemail & _); [reflexivity | vm_compute; reflexivity |].
  split; [exact Htrace | exact Hemail].
Defined.

(** X18.  [Interstitials.gdpr] contributes nothing for a draft that
    already carries a truthy consent flag, whatever the configuration and
    without any lookup; and, when consent collection is enabled, nothing
    for an existing account whose stored [gdpr_consent] parses to a
    non-zero integer, after the one lookup of that field under the key
    [user:<uid>]. *)
Theorem gdpr_skips_consented :
  forall (E : Env) (d : data) (u : obj) (t : list event),
    let uid := get u "uid" in
    let key := "user:" +:+ to_string uid in
    userData d = Some u ->
    (truthy (get u "gdpr_consent") = true -> Interstitials.gdpr E d t = (Ok d, t))
    /\ (truthy (Interstitials.cfg E "gdpr_enabled") = true ->
        truthy (get u "gdpr_consent") = false ->
        truthy uid = true ->
        parseInt_truthy (db_getObjectField E key "gdpr_consent") = true ->
        Interstitials.gdpr E d t = (Ok d, (t ++ [GetObjectField key "gdpr_consent"])%list)).
Proof.
  intros E d u t uid key Hu. subst uid key. split.
  - intros Hflag. unfold Interstitials.gdpr. rewrite Hu, Hflag.
    by destruct (negb _).
  - intros Hon Hflag Huid Hstored. unfold Interstitials.gdpr.
    rewrite Hu, Hon, Hflag, Huid. unfold_run. rewrite Hstored. reflexivity.
Qed.

Lemma gdpr_skips_consented_witness :
  let d := {| req := Fixture.request_of 7;
              userData := Some {[ "uid" := VNum 7; "gdpr_consent" := VBool true ]};
              interstitials := [] |} in
  Interstitials.gdpr Fixture.forum d [] = (Ok d, []).
Proof.
  intro d.
  apply (proj1 (gdpr_skips_consented Fixture.forum d
                  {[ "uid" := VNum 7; "gdpr_consent" := VBool true ]} [] eq_refl)).
  vm_compute. reflexivity.
Defined.

(** X19.  When consent collection is enabled and neither the draft nor,
    for an existing account, the store records a consent,
    [Interstitials.gdpr] appends the interstitial [partials/gdpr_consent]
    with the consent callback; it renders the configured digest frequency,
    and the digest as enabled unless that frequency is exactly the string
    ['off'], so also when it is not configured.  The store is consulted
    only for a draft with a uid. *)
Theorem gdpr_pushes_consent_form :
  forall (E : Env) (d : data) (u : obj) (t : list event),
    let uid := get u "uid" in
    let key := "user:" +:+ to_string uid in
    let freq := Interstitials.cfg E "dailyDigestFreq" in
    userData d = Some u ->
    truthy (Interstitials.cfg E "gdpr_enabled") = true ->
    truthy (get u "gdpr_consent") = false ->
    (truthy uid = true ->
     parseInt_truthy (db_getObjectField E key "gdpr_consent") = false) ->
    Interstitials.gdpr E d t
    = (Ok (push d {| template := "partials/gdpr_consent";
                     idata := {[ "digestFrequency" := freq;
                                 "digestEnabled" := VBool (negb (strict_eq freq (VStr "off"))) ]};
                     icallback := NodeCallback Interstitials.gdpr_callback |}),
       (t ++ if truthy uid then [GetObjectField key "gdpr_consent"] else [])%list)
    /\ (Interstitials.cfg E "dailyDigestFreq" = VUndef ->
        rendered (Interstitials.gdpr E d t) "digestEnabled" = Some (VBool true)).
Proof.
  intros E d u t uid key freq Hu Hon Hflag Hstored. subst uid key freq.
  assert (Hrun :
    Interstitials.gdpr E d t
    = (Ok (push d {| template := "partials/gdpr_consent";
                     idata := {[ "digestFrequency" := Interstitials.cfg E "dailyDigestFreq";
                                 "digestEnabled" :=
                                   VBool (negb (strict_eq (Interstitials.cfg E "dailyDigestFreq")
                                                  (VStr "off"))) ]};
                     icallback := NodeCallback Interstitials.gdpr_callback |}),
       (t ++ if truthy (get u "uid")
             then [GetObjectField ("user:" +:+ to_string (get u "uid")) "gdpr_consent"]
             else [])%list)).
  { unfold Interstitials.gdpr. rewrite Hu, Hon, Hflag. unfold_run.
    destruct (truthy (get u "uid")); unfold_run.
    - rewrite (Hstored eq_refl). reflexivity.
    - by rewrite app_nil_r. }
  split; [exact Hrun |].
  intros Hfreq. rewrite Hrun. unfold rendered, push. cbn [interstitials].
  rewrite last_snoc. cbn [fmap option_fmap option_map idata].
  rewrite Hfreq. reflexivity.
Qed.

Lemma gdpr_pushes_consent_form_witness :
  rendered
    (Interstitials.gdpr (forum_variant {[ "gdpr_enabled" := VStr "on" ]} 1 false None)
       {| req := Fixture.request_of 0;
          userData := Some {[ "username" := VStr "ada" ]};
          interstitials := [] |} [])
    "digestEnabled"
  = Some (VBool true).
Proof.
  refine (proj2 (gdpr_pushes_consent_form
                   (forum_variant {[ "gdpr_enabled" := VStr "on" ]} 1 false None)
                   {| req := Fixture.request_of 0;
                      userData := Some {[ "username" := VStr "ada" ]};
                      interstitials := [] |}
                   {[ "username" := VStr "ada" ]} [] eq_refl _ _ _) _);
    vm_compute; reflexivity.
Defined.

(** X20.  [Interstitials.tou] fires the parse hook only when it appends
    its interstitial: without a configured terms text, or for a draft that
    already carries the acceptance flag, it returns its input without any
    call; for an existing account whose stored [acceptTos] parses to a
    non-zero integer it returns its input after that one lookup. *)
Theorem tou_skips_without_parsing :
  forall (E : Env) (d : data) (u : obj) (t : list event),
    let uid := get u "uid" in
    let key := "user:" +:+ to_string uid in
    userData d = Some u ->
    (truthy (Interstitials.cfg E "termsOfUse") = false \/ truthy (get u "acceptTos") = true ->
     Interstitials.tou E d t = (Ok d, t))
    /\ (truthy (Interstitials.cfg E "termsOfUse") = true ->
        truthy (get u "acceptTos") = false ->
        truthy uid = true ->
        parseInt_truthy (db_getObjectField E key "acceptTos") = true ->
        Interstitials.tou E d t = (Ok d, (t ++ [GetObjectField key "acceptTos"])%list)).
Proof.
  intros E d u t uid key Hu. subst uid key. split.
  - intros [Hoff | Haccepted]; unfold Interstitials.tou; rewrite Hu.
    + by rewrite Hoff.
    + rewrite Haccepted. by destruct (negb _).
  - intros Hon Hflag Huid Hstored. unfold Interstitials.tou.
    rewrite Hu, Hon, Hflag, Huid. unfold_run. rewrite Hstored. reflexivity.
Qed.

Lemma tou_skips_without_parsing_witness :
  let d := {| req := Fixture.request_of 7;
              userData := Some {[ "uid" := VNum 7; "acceptTos" := VNum 1 ]};
              interstitials := [] |} in
  Interstitials.tou Fixture.forum d [] = (Ok d, []).
Proof.
  intro d.
  apply (proj1 (tou_skips_without_parsing Fixture.forum d
                  {[ "uid" := VNum 7; "acceptTos" := VNum 1 ]} [] eq_refl)).
  right. vm_compute. reflexivity.
Defined.

(** X21.  Once the callback of the consent step, or of the terms-of-use
    step, has handed [null] to its continuation, the draft carries the
    flag of that step, and the step contributes nothing when it is run
    again on that draft: it returns its input without any lookup, on any
    deployment. *)
Theorem accepted_steps_do_not_come_back :
  forall (st st' : cbstate),
    (Interstitials.gdpr_callback st = (Ok None, st') ->
     truthy (get (cb_userData st') "gdpr_consent") = true
     /\ forall (E : Env) (d : data) (t : list event),
          userData d = Some (cb_userData st') -> Interstitials.gdpr E d t = (Ok d, t))
    /\ (Interstitials.tou_callback st = (Ok None, st') ->
        truthy (get (cb_userData st') "acceptTos") = true
        /\ forall (E : Env) (d : data) (t : list event),
             userData d = Some (cb_userData st') -> Interstitials.tou E d t = (Ok d, t)).
Proof.
  intros [u f sess tr] st'. split.
  - unfold Interstitials.gdpr_callback. unfold_run.
    repeat (branch_atom; unfold_run; rewrite ?get_set_eq);
      intros [= <-]; cbn [cb_userData]; rewrite ?get_set_eq; (split; [done |]);
      intros E d t Hd; unfold Interstitials.gdpr; rewrite Hd, ?get_set_eq;
      cbn [truthy]; rewrite ?Heqb1, ?Heqb0, ?Heqb; by destruct (negb _).
  - unfold Interstitials.tou_callback. unfold_run.
    repeat (branch_atom; unfold_run; rewrite ?get_set_eq);
      intros [= <-]; cbn [cb_userData]; rewrite ?get_set_eq; (split; [done |]);
      intros E d t Hd; unfold Interstitials.tou; rewrite Hd, ?get_set_eq;
      cbn [truthy]; rewrite ?Heqb0, ?Heqb; by destruct (negb _).
Qed.

Lemma accepted_steps_do_not_come_back_witness :
  let st := Fixture.start {[ "uid" := VNum 7 ]}
              {[ "gdpr_agree_data" := VStr "on"; "gdpr_agree_email" := VStr "on" ]} in
  let st' := snd (Interstitials.gdpr_callback st) in
  let d := {| req := Fixture.request_of 7; userData := Some (cb_userData st');
              interstitials := [] |} in
  Interstitials.gdpr Fixture.forum d [] = (Ok d, []).
Proof.
  intros st st' d.
  apply (proj1 (accepted_steps_do_not_come_back st st')); reflexivity.
Defined.

(** * Trimming and re-submission *)

Lemma trim_start_idempotent (s : string) : trim_start (trim_start s) = trim_start s.
Proof.
  induction s as [| a r IH]; [reflexivity |].
  simpl. destruct (is_space a) eqn:Ha; [exact IH |]. simpl. by rewrite Ha.
Qed.

Lemma trim_start_length (s : string) :
  (String.length (trim_start s) <= String.length s)%nat.
Proof.
  induction s as [| a r IH]; [reflexivity |].
  simpl. destruct (is_space a); simpl; lia.
Qed.

(** A string that [trim_start] leaves alone does not start with a space. *)
Lemma trim_start_fixed (a : ascii) (r : string) :
  trim_start (String a r) = String a r -> is_space a = false.
Proof.
  simpl. destruct (is_space a); [| done].
  intros H. pose proof (trim_start_length r) as Hlen.
  rewrite H in Hlen. simpl in Hlen. lia.
Qed.

Lemma append_cons (a : ascii) (r t : string) : String a r +:+ t = String a (r +:+ t).
Proof. reflexivity. Qed.

Lemma append_empty_r (s : string) : s +:+ "" = s.
Proof. induction s as [| a r IH]; [reflexivity |]. by rewrite append_cons, IH. Qed.

Lemma append_assoc (s t v : string) : s +:+ (t +:+ v) = (s +:+ t) +:+ v.
Proof. induction s as [| a r IH]; [reflexivity |]. by rewrite !append_cons, IH. Qed.

Lemma rev_onto_append (s acc : string) : rev_onto s acc = rev_onto s "" +:+ acc.
Proof.
  revert acc. induction s as [| a r IH]; intros acc; [reflexivity |].
  simpl. rewrite (IH (String a acc)), (IH (String a "")).
  by rewrite <- append_assoc.
Qed.

Lemma rev_of_cons (a : ascii) (r : string) : rev (String a r) = rev r +:+ String a "".
Proof. unfold rev. simpl. apply rev_onto_append. Qed.

Lemma rev_of_append (s t : string) : rev (s +:+ t) = rev t +:+ rev s.
Proof.
  induction s as [| a r IH].
  - by rewrite append_empty_r.
  - rewrite append_cons, !rev_of_cons, IH. by rewrite append_assoc.
Qed.

Lemma rev_rev (s : string) : rev (rev s) = s.
Proof.
  induction s as [| a r IH]; [reflexivity |].
  rewrite rev_of_cons, rev_of_append, IH. reflexivity.
Qed.

(** Stripping the spaces at the start of a string keeps its end clean. *)
Lemma trim_start_keeps_clean_end (c : string) :
  trim_start (rev c) = rev c -> trim_start (rev (trim_start c)) = rev (trim_start c).
Proof.
  induction c as [| x r IH]; [done |].
  intros Hclean. simpl. destruct (is_space x) eqn:Hx; [| exact Hclean].
  apply IH. rewrite rev_of_cons in Hclean.
  destruct (rev r) as [| y q] eqn:Hrev; [reflexivity |].
  rewrite append_cons in Hclean. simpl in Hclean. simpl. destruct (is_space y) eqn:Hy; [| reflexivity].
  exfalso. pose proof (trim_start_length (q +:+ String x "")) as Hlen.
  rewrite Hclean in Hlen. simpl in Hlen. lia.
Qed.

(** [s.trim().trim()] is [s.trim()]. *)
Lemma trim_idempotent (s : string) : trim (trim s) = trim s.
Proof.
  unfold trim.
  set (c := rev (trim_start s)).
  assert (Hclean : trim_start (rev c) = rev c).
  { subst c. rewrite rev_rev. apply trim_start_idempotent. }
  rewrite (trim_start_keeps_clean_end c Hclean), rev_rev.
  by rewrite trim_start_idempotent.
Qed.

(** X22.  The callback of the email step gives the same result, and
    leaves the same state, on the form as submitted and on the form as a
    run of the callback has left it (its email trimmed): submitting again
    after a refusal is judged as the first submission was, as long as the
    collaborators answer the same. *)
Theorem email_callback_same_on_trimmed_form :
  forall (E : Env) (rq : request) (canManageUsers hasPassword : bool) (st : cbstate),
    let left_form :=
      cb_formData (snd (Interstitials.email_callback E rq canManageUsers hasPassword st)) in
    Interstitials.email_callback E rq canManageUsers hasPassword
      {| cb_userData := cb_userData st; cb_formData := left_form;
         cb_session := cb_session st; cb_trace := cb_trace st |}
    = Interstitials.email_callback E rq canManageUsers hasPassword st.
Proof.
  intros E rq cm hp st left_form. subst left_form.
  destruct (email_callback_anatomy E rq cm hp st)
    as (r & st' & evs & Hrun & _ & Hform & _).
  rewrite Hrun at 1. cbn [snd]. rewrite Hform. clear r st' evs Hrun Hform.
  destruct st as [u f sess t]. cbn [cb_userData cb_formData cb_session cb_trace].
  destruct (truthy (get f "email")) eqn:Hv; [| reflexivity].
  unfold Interstitials.email_callback.
  rewrite !run_form_get. cbn beta. cbn [cb_formData].
  rewrite get_set_eq, Hv.
  destruct (truthy (VStr (trim (to_string (get f "email"))))) eqn:Hs.
  - rewrite !run_form_set. cbn [cb_userData cb_formData cb_session cb_trace to_string].
    rewrite trim_idempotent. unfold set at 1 2. rewrite insert_insert_eq. reflexivity.
  - rewrite run_ret, run_form_set. reflexivity.
Qed.
